(** * The enwikt-dump-rs wiki maintenance scripts

    A shallow embedding of [update_data_page.py] and [save_json.py], the two
    command-line scripts that edit pages of a wiki through pywikibot, and of
    the parts of the Python runtime they call ([re.fullmatch], [re.sub],
    [str.replace], [str.format], [bytes(s, "utf-8")] and the
    ["unicode_escape"] codec), followed by the properties of the scripts. *)

From Stdlib Require Import NArith PeanoNat List String Ascii Bool DecimalString Lia.
Import ListNotations.

Set Implicit Arguments.

Local Open Scope N_scope.
Local Open Scope list_scope.

(** ** Python strings

    A Python [str] is a sequence of Unicode code points; a [bytes] object is
    a sequence of integers below 256. *)

Definition char := N.
Definition pystr := list char.
Definition pybytes := list N.

(** A string literal of the source, as the code points of its characters. *)
Definition str (s : string) : pystr := map N_of_ascii (list_ascii_of_string s).

Definition newline : char := 10.

(** [s.startswith(w)]. *)
Fixpoint starts_with (w s : pystr) : bool :=
  match w, s with
  | [], _ => true
  | _ :: _, [] => false
  | a :: w', b :: s' => (a =? b) && starts_with w' s'
  end.

(** [s.find(w)]: the index of the leftmost occurrence of [w] in [s]. *)
Fixpoint find (w s : pystr) : option nat :=
  if starts_with w s then Some 0%nat
  else match s with
       | [] => None
       | _ :: t => option_map S (find w t)
       end.

(** [s[i:j]] for [0 <= i], [0 <= j]. *)
Definition slice (s : pystr) (i j : nat) : pystr := firstn (j - i) (skipn i s).

(** [s.replace(old, new)] for a non-empty [old]: the leftmost occurrences
    that do not overlap are replaced; [skip] counts the characters of the
    occurrence just replaced that are still to be passed over. *)
Fixpoint replace_from (old new : pystr) (skip : nat) (s : pystr) : pystr :=
  match s with
  | [] => []
  | c :: t =>
      match skip with
      | S k => replace_from old new k t
      | O => if starts_with old s
             then new ++ replace_from old new (List.length old - 1) t
             else c :: replace_from old new 0 t
      end
  end.

(** [s.replace(old, new)]; with an empty [old], [new] is inserted before
    every character and at the end. *)
Definition str_replace (s old new : pystr) : pystr :=
  match old with
  | [] => flat_map (fun c => new ++ [c]) s ++ new
  | _ :: _ => replace_from old new 0 s
  end.

(** ** Exceptions and results *)

Inductive exn : Type :=
| Exception (msg : pystr)
| ValueError (msg : pystr)
| IndexError (msg : pystr)
| KeyError (key : pystr)
| TypeError
| UnicodeEncodeError
| UnicodeDecodeError (msg : pystr)
| OSError (filename : pystr)
| ClientError (msg : pystr).

Inductive result (A : Type) : Type :=
| Ok (a : A)
| Raised (e : exn).

Arguments Ok {A} a.
Arguments Raised {A} e.

Definition rbind {A B : Type} (r : result A) (f : A -> result B) : result B :=
  match r with
  | Ok a => f a
  | Raised e => Raised e
  end.

Declare Scope result_scope.
Delimit Scope result_scope with result.
Notation "x <- r ;; k" := (rbind r (fun x => k))
  (at level 61, r at next level, right associativity) : result_scope.

(** ** The interpreter and its tables

    What the scripts use of the interpreter but is no code of theirs: the
    Unicode character database ([\d] of [re] is the category Nd, [\N{...}]
    of the ["unicode_escape"] codec looks a name up), the largest
    [Py_ssize_t], and what [str.format] renders from a replacement field
    on that is more than a number: [format_extended template args] is what
    the call appends from the first field of [template] that has a name,
    an attribute, an index, a conversion or a format specification to the
    end of the template, or the exception it raises from there on. *)

Class Runtime : Type := {
  unicode_Nd : char -> bool;
  unicode_Nd_ascii :
    forall c, c < 128 -> unicode_Nd c = (48 <=? c) && (c <=? 57);
  unicode_lookup : pybytes -> option char;
  ssize_t_max : N;
  format_extended : pystr -> list pystr -> result pystr
}.

(** ** Regular expressions: the part of [re] the scripts use *)

Module Re.
Section Engine.
Context {RT : Runtime}.

(** A set of characters: [.] compiled under [re.DOTALL], [\d], or one
    literal character. *)
Inductive charset : Type :=
| Any
| DecimalDigit
| Literal (c : char).

Definition in_set (cs : charset) (c : char) : bool :=
  match cs with
  | Any => true
  | DecimalDigit => unicode_Nd c
  | Literal x => c =? x
  end.

(** Patterns. A repetition is over a set of characters, lazy or greedy,
    with a least count and an optional greatest count. [AtEnd] is [$]
    without [re.MULTILINE]. *)
Inductive regex : Type :=
| Empty
| Chars (cs : charset)
| Seq (r1 r2 : regex)
| Group (n : nat) (r : regex)
| Repeat (lazy : bool) (lo : nat) (hi : option nat) (cs : charset)
| AtEnd.

(** The literal text [w] as a pattern. *)
Definition lits (w : pystr) : regex :=
  fold_right (fun c r => Seq (Chars (Literal c)) r) Empty w.

(** Group marks: the span of every group that has matched so far. *)
Definition marks := list (nat * (nat * nat)).

Fixpoint lookup_mark (n : nat) (m : marks) : option (nat * nat) :=
  match m with
  | [] => None
  | (i, sp) :: m' => if Nat.eqb i n then Some sp else lookup_mark n m'
  end.

(** The matcher backtracks: [k] is what remains to be matched, given the
    position reached, the text from there on and the marks. *)
Definition cont : Type := nat -> pystr -> marks -> option (nat * marks).

Definition allows (extra : option nat) : bool :=
  match extra with
  | Some O => false
  | _ => true
  end.

Definition less_one (extra : option nat) : option nat := option_map pred extra.

(** Exactly [n] characters of [cs]. *)
Fixpoint exactly (cs : charset) (n : nat) (pos : nat) (rest : pystr)
    (m : marks) (k : cont) : option (nat * marks) :=
  match n with
  | O => k pos rest m
  | S n' =>
      match rest with
      | c :: t => if in_set cs c then exactly cs n' (S pos) t m k else None
      | [] => None
      end
  end.

(** A lazy repetition tries the rest of the pattern first and takes one
    more character only when that fails. *)
Fixpoint lazy_more (cs : charset) (extra : option nat) (pos : nat)
    (rest : pystr) (m : marks) (k : cont) : option (nat * marks) :=
  match k pos rest m with
  | Some r => Some r
  | None =>
      match rest with
      | c :: t => if in_set cs c && allows extra
                  then lazy_more cs (less_one extra) (S pos) t m k
                  else None
      | [] => None
      end
  end.

(** A greedy repetition takes all the characters it can and gives them
    back one at a time while the rest of the pattern fails. *)
Fixpoint greedy_more (cs : charset) (extra : option nat) (pos : nat)
    (rest : pystr) (m : marks) (k : cont) : option (nat * marks) :=
  match rest with
  | c :: t =>
      if in_set cs c && allows extra
      then match greedy_more cs (less_one extra) (S pos) t m k with
           | Some r => Some r
           | None => k pos rest m
           end
      else k pos rest m
  | [] => k pos rest m
  end.

Fixpoint rmatch (r : regex) (pos : nat) (rest : pystr) (m : marks)
    (k : cont) : option (nat * marks) :=
  match r with
  | Empty => k pos rest m
  | Chars cs =>
      match rest with
      | c :: t => if in_set cs c then k (S pos) t m else None
      | [] => None
      end
  | Seq r1 r2 =>
      rmatch r1 pos rest m (fun pos' rest' m' => rmatch r2 pos' rest' m' k)
  | Group n r' =>
      rmatch r' pos rest m
        (fun pos' rest' m' => k pos' rest' ((n, (pos, pos')) :: m'))
  | Repeat lazy lo hi cs =>
      let extra := option_map (fun h => (h - lo)%nat) hi in
      exactly cs lo pos rest m
        (fun pos' rest' m' =>
           if lazy then lazy_more cs extra pos' rest' m' k
           else greedy_more cs extra pos' rest' m' k)
  | AtEnd =>
      match rest with
      | [] => k pos rest m
      | [c] => if c =? newline then k pos rest m else None
      | _ :: _ :: _ => None
      end
  end.

(** Match objects. *)
Record match_obj : Type := {
  m_string : pystr;
  m_start : nat;
  m_end : nat;
  m_marks : marks
}.

(** [m.group(n)]; [None] is Python's [None] of a group that took no part. *)
Definition group (m : match_obj) (n : nat) : option pystr :=
  match n with
  | O => Some (slice (m_string m) (m_start m) (m_end m))
  | S _ =>
      match lookup_mark n (m_marks m) with
      | Some (a, b) => Some (slice (m_string m) a b)
      | None => None
      end
  end.

(** One attempt at position [pos], where [rest] is the text from [pos] on.
    With [must_advance] an empty match is refused, with [match_all] a
    match that stops before the end is. *)
Definition try_at (r : regex) (text : pystr) (pos : nat) (rest : pystr)
    (must_advance match_all : bool) : option match_obj :=
  match rmatch r pos rest []
          (fun pos' rest' m' =>
             if must_advance && Nat.eqb pos' pos then None
             else if match_all && negb (Nat.eqb (List.length rest') 0) then None
             else Some (pos', m')) with
  | Some (e, m') =>
      Some {| m_string := text; m_start := pos; m_end := e; m_marks := m' |}
  | None => None
  end.

(** [re.fullmatch(r, text)]. *)
Definition re_fullmatch (r : regex) (text : pystr) : option match_obj :=
  try_at r text 0 text false true.

(** [re.sub(r, repl, text)] with a function [repl]: the text with the
    leftmost matches that do not overlap replaced. The scan goes through
    the positions of the text; [skip] counts the characters of the last
    match still to be passed over. A position is tried once, and once more
    for a match that is not empty when the first match there was empty. *)
Fixpoint sub_scan (r : regex) (repl : match_obj -> result pystr)
    (text : pystr) (pos : nat) (rest : pystr) (skip : nat) : result pystr :=
  let step (keep : bool) (skip' : nat) : result pystr :=
    match rest with
    | [] => Ok []
    | c :: t =>
        (tl <- sub_scan r repl text (S pos) t skip' ;;
         Ok (if keep then c :: tl else tl))%result
    end in
  let after (mo : match_obj) : result pystr :=
    step false (m_end mo - pos - 1)%nat in
  match skip with
  | S k => step false k
  | O =>
      match try_at r text pos rest false false with
      | None => step true 0%nat
      | Some mo =>
          (piece <- repl mo ;;
           if Nat.eqb (m_end mo) pos
           then match try_at r text pos rest true false with
                | None => tl <- step true 0%nat ;; Ok (piece ++ tl)
                | Some mo' =>
                    piece' <- repl mo' ;;
                    tl <- after mo' ;;
                    Ok (piece ++ piece' ++ tl)
                end
           else tl <- after mo ;; Ok (piece ++ tl))%result
      end
  end.

Definition re_sub (r : regex) (repl : match_obj -> result pystr)
    (text : pystr) : result pystr :=
  sub_scan r repl text 0 text 0.

End Engine.
End Re.

(** ** Codecs: [bytes(s, "utf-8")] and [bytes.decode("unicode_escape")] *)

Module Codec.
Section Codecs.
Context {RT : Runtime}.

(** The UTF-8 encoding of one code point; surrogates are refused. *)
Definition utf8_encode_char (c : char) : option pybytes :=
  let tail (n : N) := N.lor 0x80 (N.land (N.shiftr c n) 0x3F) in
  if c <? 0x80 then Some [c]
  else if c <? 0x800 then Some [N.lor 0xC0 (N.shiftr c 6); tail 0]
  else if c <? 0x10000 then
    if (0xD800 <=? c) && (c <=? 0xDFFF) then None
    else Some [N.lor 0xE0 (N.shiftr c 12); tail 6; tail 0]
  else if c <? 0x110000 then
    Some [N.lor 0xF0 (N.shiftr c 18); tail 12; tail 6; tail 0]
  else None.

(** [bytes(s, "utf-8")]. *)
Fixpoint utf8_encode (s : pystr) : result pybytes :=
  match s with
  | [] => Ok []
  | c :: t =>
      match utf8_encode_char c with
      | None => Raised UnicodeEncodeError
      | Some bs => (tl <- utf8_encode t ;; Ok (bs ++ tl))%result
      end
  end.

(** Where the ["unicode_escape"] decoder stands between two bytes: in plain
    text, after a backslash, inside an octal escape ([count] digits read),
    inside a [\x], [\u] or [\U] escape ([todo] digits to read), after [\N],
    or inside the braces of [\N{...}]. *)
Inductive esc_state : Type :=
| Plain
| Backslash
| Octal (count : nat) (v : N)
| Hex (kind : N) (todo : nat) (v : N)
| NameOpen
| Name (acc : pybytes).

Definition hex_value (b : N) : option N :=
  if (48 <=? b) && (b <=? 57) then Some (b - 48)
  else if (97 <=? b) && (b <=? 102) then Some (b - 87)
  else if (65 <=? b) && (b <=? 70) then Some (b - 55)
  else None.

Definition is_octal (b : N) : bool := (48 <=? b) && (b <=? 55).

Definition truncated (kind : N) : exn :=
  UnicodeDecodeError
    (if kind =? 120 then str "truncated \xXX escape"
     else if kind =? 117 then str "truncated \uXXXX escape"
     else str "truncated \UXXXXXXXX escape").

(** A byte in plain text: a backslash opens an escape, any other byte is
    the code point of the same number. *)
Definition plain_step (b : N) : esc_state * pystr :=
  if b =? 92 then (Backslash, []) else (Plain, [b]).

(** The byte after a backslash. *)
Definition backslash_step (b : N) : esc_state * pystr :=
  if b =? 10 then (Plain, [])
  else if b =? 92 then (Plain, [92])
  else if b =? 39 then (Plain, [39])
  else if b =? 34 then (Plain, [34])
  else if b =? 98 then (Plain, [8])
  else if b =? 102 then (Plain, [12])
  else if b =? 116 then (Plain, [9])
  else if b =? 110 then (Plain, [10])
  else if b =? 114 then (Plain, [13])
  else if b =? 118 then (Plain, [11])
  else if b =? 97 then (Plain, [7])
  else if is_octal b then (Octal 1 (b - 48), [])
  else if b =? 120 then (Hex b 2 0, [])
  else if b =? 117 then (Hex b 4 0, [])
  else if b =? 85 then (Hex b 8 0, [])
  else if b =? 78 then (NameOpen, [])
  else (Plain, [92; b]).

Definition escape_step (st : esc_state) (b : N) : result (esc_state * pystr) :=
  match st with
  | Plain => Ok (plain_step b)
  | Backslash => Ok (backslash_step b)
  | Octal count v =>
      if is_octal b then
        let v' := N.shiftl v 3 + (b - 48) in
        match count with
        | 1%nat => Ok (Octal 2 v', [])
        | _ => Ok (Plain, [v'])
        end
      else let (st', out) := plain_step b in Ok (st', v :: out)
  | Hex kind todo v =>
      match hex_value b with
      | None => Raised (truncated kind)
      | Some d =>
          let v' := N.shiftl v 4 + d in
          match todo with
          | S (S l) => Ok (Hex kind (S l) v', [])
          | _ => if 0x10FFFF <? v'
                 then Raised (UnicodeDecodeError (str "illegal Unicode character"))
                 else Ok (Plain, [v'])
          end
      end
  | NameOpen =>
      if b =? 123 then Ok (Name [], [])
      else Raised (UnicodeDecodeError (str "malformed \N character escape"))
  | Name acc =>
      if b =? 125 then
        match acc with
        | [] => Raised (UnicodeDecodeError (str "malformed \N character escape"))
        | _ :: _ =>
            match unicode_lookup (rev acc) with
            | Some c => Ok (Plain, [c])
            | None =>
                Raised (UnicodeDecodeError (str "unknown Unicode character name"))
            end
        end
      else Ok (Name (b :: acc), [])
  end.

(** The end of the input. *)
Definition escape_end (st : esc_state) : result pystr :=
  match st with
  | Plain => Ok []
  | Backslash => Raised (UnicodeDecodeError (str "\ at end of string"))
  | Octal _ v => Ok [v]
  | Hex kind _ _ => Raised (truncated kind)
  | NameOpen | Name _ =>
      Raised (UnicodeDecodeError (str "malformed \N character escape"))
  end.

Fixpoint escape_run (st : esc_state) (bs : pybytes) : result pystr :=
  match bs with
  | [] => escape_end st
  | b :: t =>
      (step <- escape_step st b ;;
       tl <- escape_run (fst step) t ;;
       Ok (snd step ++ tl))%result
  end.

(** [bs.decode("unicode_escape")]. *)
Definition unicode_escape_decode (bs : pybytes) : result pystr :=
  escape_run Plain bs.

End Codecs.
End Codec.

(** ** [str.format] with positional arguments that are strings *)

Module Format.
Section Formatting.
Context {RT : Runtime}.

(** How the fields seen so far were numbered, and the next automatic
    number. *)
Inductive an_state : Type := ANS_INIT | ANS_AUTO | ANS_MANUAL.

Record autonumber : Type := {
  an_mode : an_state;
  an_field_number : nat
}.

Definition is_ascii_digit (c : char) : bool := (48 <=? c) && (c <=? 57).

(** The number a field name of decimal digits denotes. *)
Fixpoint get_integer (acc : N) (digits : pystr) : result N :=
  match digits with
  | [] => Ok acc
  | d :: t =>
      let v := d - 48 in
      if (ssize_t_max - v) / 10 <? acc
      then Raised (ValueError (str "Too many decimal digits in format string"))
      else get_integer (acc * 10 + v) t
  end.

(** [str(n)] for a number that is not negative. *)
Definition decimal (n : N) : pystr :=
  str (NilEmpty.string_of_uint (N.to_uint n)).

Definition getitem (args : list pystr) (i : nat) : result pystr :=
  match nth_error args i with
  | Some v => Ok v
  | None =>
      Raised (IndexError
                (str "Replacement index " ++ decimal (N.of_nat i)
                   ++ str " out of range for positional args tuple"))
  end.

(** The value of the field named [name], a possibly empty run of decimal
    digits, and the numbering state after it. *)
Definition get_field (an : autonumber) (name : pystr) (args : list pystr)
    : result (pystr * autonumber) :=
  match name with
  | [] =>
      match an_mode an with
      | ANS_MANUAL =>
          Raised (ValueError (str "cannot switch from manual field specification to automatic field numbering"))
      | _ =>
          (v <- getitem args (an_field_number an) ;;
           Ok (v, {| an_mode := ANS_AUTO;
                     an_field_number := S (an_field_number an) |}))%result
      end
  | _ :: _ =>
      (idx <- get_integer 0 name ;;
       match an_mode an with
       | ANS_AUTO =>
           Raised (ValueError (str "cannot switch from automatic field numbering to manual field specification"))
       | _ =>
           v <- getitem args (N.to_nat idx) ;;
           Ok (v, {| an_mode := ANS_MANUAL;
                     an_field_number := an_field_number an |})
       end)%result
  end.

(** Where the scan of the template stands: in literal text, or inside a
    replacement field whose name so far is [name]. *)
Inductive mode : Type :=
| InText
| InField (name : pystr).

Definition open_brace : char := 123.
Definition close_brace : char := 125.

(** The scan of the template, left to right. A doubled brace is one brace
    of text, a single closing brace is an error, a single opening brace
    starts a field. A field whose name is empty or a run of ASCII digits is
    replaced by the argument of that number; from any other field on, the
    rest of the result is the interpreter's [format_extended] of the
    template and the arguments, after the text rendered so far. *)
Fixpoint format_scan (template : pystr) (args : list pystr) (an : autonumber)
    (md : mode) (s : pystr) : result pystr :=
  match md, s with
  | InText, [] => Ok []
  | InText, c :: t =>
      if c =? open_brace then
        match t with
        | [] => Raised (ValueError (str "Single '{' encountered in format string"))
        | c2 :: t2 =>
            if c2 =? open_brace
            then (tl <- format_scan template args an InText t2 ;;
                  Ok (open_brace :: tl))%result
            else format_scan template args an (InField []) t
        end
      else if c =? close_brace then
        match t with
        | [] => Raised (ValueError (str "Single '}' encountered in format string"))
        | c2 :: t2 =>
            if c2 =? close_brace
            then (tl <- format_scan template args an InText t2 ;;
                  Ok (close_brace :: tl))%result
            else Raised (ValueError (str "Single '}' encountered in format string"))
        end
      else (tl <- format_scan template args an InText t ;; Ok (c :: tl))%result
  | InField _, [] =>
      Raised (ValueError (str "expected '}' before end of string"))
  | InField name, c :: t =>
      if c =? close_brace then
        (field <- get_field an name args ;;
         tl <- format_scan template args (snd field) InText t ;;
         Ok (fst field ++ tl))%result
      else if is_ascii_digit c
      then format_scan template args an (InField (name ++ [c])) t
      else format_extended template args
  end.

(** [template.format(args...)] with the positional arguments [args]. *)
Definition str_format (template : pystr) (args : list pystr) : result pystr :=
  format_scan template args
    {| an_mode := ANS_INIT; an_field_number := 0 |} InText template.

End Formatting.
End Format.

(** ** The Wiki Client and the file system

    The scripts reach the outside through pywikibot and [open]. A script is
    a tree of such calls: each call hands its answer to the rest of the
    script, and every exception the script does not catch ends it. The
    [import] of pywikibot is no call of the script and is not in the tree. *)

Module Client.

(** Handles given out by pywikibot. *)
Definition site_handle := nat.
Definition page_handle := nat.

Inductive effect : Type -> Type :=
| Site (code : pystr) : effect site_handle
| Page (site : site_handle) (title : pystr) : effect page_handle
| get_text (page : page_handle) : effect pystr
| set_text (page : page_handle) (text : pystr) : effect unit
| save (page : page_handle) (summary : pystr) (minor : bool) : effect unit
| read_file (filename : pystr) : effect pystr.

Inductive prog (A : Type) : Type :=
| Ret (a : A)
| Raise (e : exn)
| Do (X : Type) (op : effect X) (k : X -> prog A).

Arguments Ret {A} a.
Arguments Raise {A} e.
Arguments Do {A X} op k.

Fixpoint bind {A B : Type} (p : prog A) (f : A -> prog B) : prog B :=
  match p with
  | Ret a => f a
  | Raise e => Raise e
  | Do op k => Do op (fun x => bind (k x) f)
  end.

Definition call {X : Type} (op : effect X) : prog X := Do op Ret.

Definition lift {A : Type} (r : result A) : prog A :=
  match r with
  | Ok a => Ret a
  | Raised e => Raise e
  end.

Declare Scope prog_scope.
Delimit Scope prog_scope with prog.
Notation "x <- p ;; k" := (bind p (fun x => k))
  (at level 61, p at next level, right associativity) : prog_scope.
Notation "p ;; k" := (bind p (fun _ => k))
  (at level 61, right associativity) : prog_scope.

(** A call that was made. *)
Inductive event : Type :=
| Called (X : Type) (op : effect X).

Arguments Called {X} op.

(** The outside world: its state and how it answers a call. *)
Record world (W : Type) : Type := {
  respond : forall X : Type, effect X -> W -> result X * W
}.

(** A run of a script in a world: the calls made in order, the state of
    the world at the end, and how the script ended. *)
Fixpoint run {W A : Type} (c : world W) (p : prog A) (w : W)
    : list event * W * result A :=
  match p with
  | Ret a => ([], w, Ok a)
  | Raise e => ([], w, Raised e)
  | Do op k =>
      match respond c op w with
      | (Ok x, w') =>
          match run c (k x) w' with
          | (calls, w'', out) => (Called op :: calls, w'', out)
          end
      | (Raised e, w') => ([Called op], w', Raised e)
      end
  end.

Definition calls_of {W A : Type} (c : world W) (p : prog A) (w : W)
    : list event := fst (fst (run c p w)).

Definition outcome_of {W A : Type} (c : world W) (p : prog A) (w : W)
    : result A := snd (run c p w).

(** A wiki and a file system kept in memory. Pages and files are looked up
    by name, the handle of a site or page is its number in the order of
    creation, a page that does not exist reads as the empty text, and a
    file that does not exist cannot be opened. *)
Record memory : Type := {
  files : list (pystr * pystr);
  wiki : list (pystr * pystr);
  handles : list (pystr * option pystr);
  edits : list (pystr * pystr * pystr * bool)
}.

Fixpoint assoc (key : pystr) (l : list (pystr * pystr)) : option pystr :=
  match l with
  | [] => None
  | (k, v) :: l' =>
      if list_eq_dec N.eq_dec k key then Some v else assoc key l'
  end.

Fixpoint set_nth {A : Type} (n : nat) (x : A) (l : list A) : list A :=
  match l, n with
  | [], _ => []
  | _ :: t, O => x :: t
  | a :: t, S n' => a :: set_nth n' x t
  end.

Definition handle_text (w : memory) (title : pystr) (buffer : option pystr)
    : pystr :=
  match buffer with
  | Some text => text
  | None =>
      match assoc title (wiki w) with
      | Some text => text
      | None => []
      end
  end.

Definition memory_respond (X : Type) (op : effect X) (w : memory)
    : result X * memory :=
  match op in effect T return result T * memory with
  | Site _ => (Ok 0%nat, w)
  | Page _ title =>
      (Ok (List.length (handles w)),
       {| files := files w; wiki := wiki w;
          handles := handles w ++ [(title, None)]; edits := edits w |})
  | get_text page =>
      match nth_error (handles w) page with
      | Some (title, buffer) =>
          let text := handle_text w title buffer in
          (Ok text,
           {| files := files w; wiki := wiki w;
              handles := set_nth page (title, Some text) (handles w);
              edits := edits w |})
      | None => (Raised (ClientError (str "no such page handle")), w)
      end
  | set_text page text =>
      match nth_error (handles w) page with
      | Some (title, _) =>
          (Ok tt,
           {| files := files w; wiki := wiki w;
              handles := set_nth page (title, Some text) (handles w);
              edits := edits w |})
      | None => (Raised (ClientError (str "no such page handle")), w)
      end
  | save page summary minor =>
      match nth_error (handles w) page with
      | Some (title, buffer) =>
          let text := handle_text w title buffer in
          (Ok tt,
           {| files := files w; wiki := (title, text) :: wiki w;
              handles := handles w;
              edits := edits w ++ [(title, text, summary, minor)] |})
      | None => (Raised (ClientError (str "no such page handle")), w)
      end
  | read_file filename =>
      match assoc filename (files w) with
      | Some text => (Ok text, w)
      | None => (Raised (OSError filename), w)
      end
  end.

Definition in_memory : world memory := {| respond := memory_respond |}.

End Client.

(** ** The scripts *)

Section Scripts.
Context {RT : Runtime}.
Import Client.
Local Open Scope prog_scope.

(** [sys.argv[i]] for an index within the arguments. *)
Definition argv_at (argv : list pystr) (i : nat) : pystr := nth i argv [].

(** Truth value of [content], which is [None] or a string. *)
Definition truthy (content : option pystr) : bool :=
  match content with
  | Some (_ :: _) => true
  | _ => false
  end.

(** *** update_data_page.py *)

(** [r'\d{4}-\d{2}-\d{2}'] *)
Definition date_re : Re.regex :=
  Re.Seq (Re.Repeat false 4 (Some 4%nat) Re.DecimalDigit)
    (Re.Seq (Re.Chars (Re.Literal 45))
       (Re.Seq (Re.Repeat false 2 (Some 2%nat) Re.DecimalDigit)
          (Re.Seq (Re.Chars (Re.Literal 45))
             (Re.Repeat false 2 (Some 2%nat) Re.DecimalDigit)))).

(** [r"(<!-- (\{\{subst:.+?\}\}) -->).*$"] under [re.DOTALL] *)
Definition marker_re : Re.regex :=
  Re.Seq
    (Re.Group 1
       (Re.Seq (Re.lits (str "<!-- "))
          (Re.Seq
             (Re.Group 2
                (Re.Seq (Re.lits (str "{{subst:"))
                   (Re.Seq (Re.Repeat true 1 None Re.Any)
                      (Re.lits (str "}}")))))
             (Re.lits (str " -->")))))
    (Re.Seq (Re.Repeat false 0 None Re.Any) Re.AtEnd).

(** [lambda match: match.group(1) + "\n" + match.group(2).replace("...", date)] *)
Definition replacement (date : pystr) (m : Re.match_obj) : result pystr :=
  match Re.group m 1, Re.group m 2 with
  | Some g1, Some g2 => Ok (g1 ++ [newline] ++ str_replace g2 (str "...") date)
  | _, _ => Raised TypeError
  end.

(** The new text of the page: lines 15 to 19. *)
Definition updated_text (date text : pystr) : result pystr :=
  Re.re_sub marker_re (replacement date) text.

Definition update_data_page (argv : list pystr) : prog unit :=
  if (List.length argv <? 4)%nat
  then Raise (Exception (str "provide title and date of dump and edit summary"))
  else
    let title := argv_at argv 1 in
    let date := argv_at argv 2 in
    match Re.re_fullmatch date_re date with
    | None =>
        msg <- lift (Format.str_format
                       (str "Date '{}' should be in yyyy-mm-dd format") [date]) ;;
        Raise (Exception msg)
    | Some _ =>
        let summary := argv_at argv 3 in
        site <- call (Site (str "en")) ;;
        page <- call (Page site title) ;;
        text <- call (get_text page) ;;
        text' <- lift (updated_text date text) ;;
        call (set_text page text') ;;
        call (save page summary false)
    end.

(** *** save_json.py *)

(** [bytes(s, "utf-8").decode("unicode_escape")] *)
Definition decode (s : pystr) : result pystr :=
  (bs <- Codec.utf8_encode s ;; Codec.unicode_escape_decode bs)%result.

(** The text given to the page: lines 18 to 21. An argument of
    [str.format] that is [None] is formatted as the text [None]. *)
Definition page_text (format_string : pystr) (content : option pystr)
    : result pystr :=
  if truthy content
  then Format.str_format format_string
         [match content with
          | Some text => text
          | None => str "None"
          end]
  else Ok format_string.

Definition save_json (argv : list pystr) : prog unit :=
  if (List.length argv <? 4)%nat
  then Raise (Exception
    (str "provide format string and title and edit summary (and optionally filename)"))
  else
    format_string <- lift (decode (argv_at argv 1)) ;;
    let title := argv_at argv 2 in
    let summary := argv_at argv 3 in
    content <- (if (5 <=? List.length argv)%nat
                then
                  let filename := argv_at argv 4 in
                  text <- call (read_file filename) ;; Ret (Some text)
                else Ret None) ;;
    site <- call (Site (str "en")) ;;
    page <- call (Page site title) ;;
    text <- lift (page_text format_string content) ;;
    call (set_text page text) ;;
    call (save page summary false).

(** *** Reference readings of the scripts *)

(** Ten characters, decimal digits but for a hyphen at the fifth and at the
    eighth place: what the date was said to look like. *)
Definition date_shape (d : pystr) : bool :=
  match d with
  | [y1; y2; y3; y4; h1; m1; m2; h2; d1; d2] =>
      unicode_Nd y1 && unicode_Nd y2 && unicode_Nd y3 && unicode_Nd y4 &&
      (h1 =? 45) &&
      unicode_Nd m1 && unicode_Nd m2 &&
      (h2 =? 45) &&
      unicode_Nd d1 && unicode_Nd d2
  | _ => false
  end.

(** Whether [re.fullmatch] gave a match object. *)
Definition matched (m : option Re.match_obj) : bool :=
  match m with
  | Some _ => true
  | None => false
  end.

(** Setting the text of the page [title] of the English wiki to [text]
    and saving it as an edit that is not minor; with [text] an exception,
    the script ends on it once it has the page. *)
Definition publish (title summary : pystr) (text : result pystr) : prog unit :=
  site <- call (Site (str "en")) ;;
  page <- call (Page site title) ;;
  text' <- lift text ;;
  call (set_text page text') ;;
  call (save page summary false).

End Scripts.

(** ** Reference reading of the marker pattern

    What the substitution of [update_data_page.py] does, said with
    [startswith] and [find] alone. The regular expression is compared with
    it below. *)

Definition marker_open : pystr := str "<!-- " ++ str "{{subst:".
Definition marker_close : pystr := str "}}" ++ str " -->".

(** The expression [{{subst:x}}] and the comment around it. *)
Definition subst_expr (x : pystr) : pystr := str "{{subst:" ++ x ++ str "}}".
Definition comment (x : pystr) : pystr :=
  str "<!-- " ++ subst_expr x ++ str " -->".

(** A marker comment occurs in the text: [<!-- {{subst:x}} -->] with at
    least one character for [x]. *)
Definition contains_marker (text : pystr) : Prop :=
  exists pre x post, x <> [] /\ text = pre ++ comment x ++ post.

(** A marker comment at the head of [s]: the opening, one character at
    least, and then the nearest closing. Gives [x] and what follows the
    comment. *)
Definition marker_at (s : pystr) : option (pystr * pystr) :=
  if starts_with marker_open s then
    match skipn (List.length marker_open) s with
    | [] => None
    | c :: r =>
        match find marker_close r with
        | Some j =>
            Some (c :: firstn j r, skipn (j + List.length marker_close) r)
        | None => None
        end
    end
  else None.

(** The leftmost marker comment of [s]: what precedes it, its [x], and
    what follows it. *)
Fixpoint first_marker (s : pystr) : option (pystr * pystr * pystr) :=
  match marker_at s with
  | Some (x, post) => Some ([], x, post)
  | None =>
      match s with
      | [] => None
      | c :: t =>
          match first_marker t with
          | Some (pre, x, post) => Some (c :: pre, x, post)
          | None => None
          end
      end
  end.

(** The comment, a newline, and the expression with the date filled in. *)
Definition regenerated (date x : pystr) : pystr :=
  comment x ++ [newline] ++ str_replace (subst_expr x) (str "...") date.

Definition expected_text (date text : pystr) : pystr :=
  match first_marker text with
  | Some (pre, x, _) => pre ++ regenerated date x
  | None => text
  end.

(** A text that holds no brace. *)
Definition brace_free (s : pystr) : Prop :=
  Forall (fun c => c <> Format.open_brace /\ c <> Format.close_brace) s.

(** A world with the files [fs], an empty wiki and no handle given out. *)
Definition empty_memory (fs : list (pystr * pystr)) : Client.memory :=
  {| Client.files := fs; Client.wiki := []; Client.handles := [];
     Client.edits := [] |}.

(** A wiki that gives out handles and cannot be reached: every reading,
    setting and saving fails, and there is no file. *)
Definition offline_respond (X : Type) (op : Client.effect X) (w : unit)
    : result X * unit :=
  match op in Client.effect T return result T * unit with
  | Client.Site _ => (Ok 0%nat, w)
  | Client.Page _ _ => (Ok 0%nat, w)
  | Client.get_text _ => (Raised (ClientError (str "offline")), w)
  | Client.set_text _ _ => (Raised (ClientError (str "offline")), w)
  | Client.save _ _ _ => (Raised (ClientError (str "offline")), w)
  | Client.read_file filename => (Raised (OSError filename), w)
  end.

Definition offline : Client.world unit := {| Client.respond := offline_respond |}.

(** A world with the page [title] holding [text] and no file. *)
Definition wiki_memory (title text : pystr) : Client.memory :=
  {| Client.files := []; Client.wiki := [(title, text)];
     Client.handles := []; Client.edits := [] |}.

(** An interpreter whose tables know the ASCII digits and the fullwidth
    digits, no character name, and refuse every extended field. *)
Definition small_Nd (c : char) : bool :=
  ((48 <=? c) && (c <=? 57)) || ((0xFF10 <=? c) && (c <=? 0xFF19)).

Lemma small_Nd_ascii c : c < 128 -> small_Nd c = (48 <=? c) && (c <=? 57).
Proof.
  intros H. unfold small_Nd.
  destruct ((48 <=? c) && (c <=? 57)); [reflexivity|].
  simpl. apply andb_false_iff. left. apply N.leb_gt. lia.
Qed.

Definition small_runtime : Runtime := {|
  unicode_Nd := small_Nd;
  unicode_Nd_ascii := small_Nd_ascii;
  unicode_lookup := fun _ => None;
  ssize_t_max := 9223372036854775807;
  format_extended := fun _ _ => Raised (ValueError (str "extended field"))
|}.

(** Every character of a text that is written out meets a condition
    that evaluates. *)
Ltac each_char :=
  repeat (apply Forall_cons; [first [discriminate | reflexivity
                                    | split; first [discriminate | reflexivity]]|]);
  apply Forall_nil.

Unset Implicit Arguments.

(** ** Facts about strings *)

Lemma starts_with_app (w s : pystr) : starts_with w (w ++ s) = true.
Proof.
  induction w as [|a w IH]; simpl; [reflexivity|].
  now rewrite N.eqb_refl, IH.
Qed.

Lemma starts_with_split (w s : pystr) :
  starts_with w s = true -> s = w ++ skipn (List.length w) s.
Proof.
  revert s. induction w as [|a w IH]; intros [|b s] H; simpl in *;
    try reflexivity; try discriminate.
  apply andb_true_iff in H as [Hab Hw].
  apply N.eqb_eq in Hab. subst b. f_equal. now apply IH.
Qed.

Lemma starts_with_concat (u v s : pystr) :
  starts_with (u ++ v) s =
  starts_with u s && starts_with v (skipn (List.length u) s).
Proof.
  revert s. induction u as [|a u IH]; intros s; simpl.
  - reflexivity.
  - destruct s as [|b s]; simpl; [reflexivity|].
    rewrite IH. now rewrite andb_assoc.
Qed.

Lemma starts_with_nil_r (w : pystr) : starts_with w [] = true -> w = [].
Proof. destruct w; simpl; [reflexivity|discriminate]. Qed.

Lemma find_split (w s : pystr) (j : nat) :
  find w s = Some j ->
  s = firstn j s ++ w ++ skipn (j + List.length w) s.
Proof.
  revert j. induction s as [|c t IH]; intros j H; simpl in H.
  - destruct (starts_with w []) eqn:E; [|discriminate].
    injection H as <-. now rewrite (starts_with_nil_r _ E).
  - destruct (starts_with w (c :: t)) eqn:E.
    + injection H as <-. simpl firstn. simpl app at 1.
      now apply starts_with_split.
    + destruct (find w t) as [i|] eqn:F; [|discriminate].
      injection H as <-. simpl. f_equal. now apply IH.
Qed.

Lemma find_before (w s : pystr) (j i : nat) :
  find w s = Some j -> (i < j)%nat -> starts_with w (skipn i s) = false.
Proof.
  revert j i. induction s as [|c t IH]; intros j i H Hi; simpl in H.
  - destruct (starts_with w []); [injection H as <-; lia|discriminate].
  - destruct (starts_with w (c :: t)) eqn:E.
    + injection H as <-. lia.
    + destruct (find w t) as [n|] eqn:F; [|discriminate].
      injection H as <-. destruct i as [|i]; [exact E|].
      simpl. apply (IH n); [reflexivity|lia].
Qed.

Lemma find_at (w s : pystr) (j : nat) :
  find w s = Some j -> starts_with w (skipn j s) = true.
Proof.
  revert j. induction s as [|c t IH]; intros j H; simpl in H.
  - destruct (starts_with w []) eqn:E; [|discriminate].
    injection H as <-. exact E.
  - destruct (starts_with w (c :: t)) eqn:E.
    + injection H as <-. exact E.
    + destruct (find w t) as [n|] eqn:F; [|discriminate].
      injection H as <-. simpl. now apply IH.
Qed.

Lemma find_le (w s : pystr) (j : nat) :
  find w s = Some j -> (j <= List.length s)%nat.
Proof.
  revert j. induction s as [|c t IH]; intros j H; simpl in H.
  - destruct (starts_with w []); [injection H as <-; simpl; lia|discriminate].
  - destruct (starts_with w (c :: t)).
    + injection H as <-. lia.
    + destruct (find w t) as [n|]; [|discriminate].
      injection H as <-. specialize (IH n eq_refl). simpl. lia.
Qed.

(** An occurrence at [n] gives a leftmost occurrence at or before [n]. *)
Lemma find_some (w s : pystr) (n : nat) :
  starts_with w (skipn n s) = true -> (n <= List.length s)%nat ->
  exists j, find w s = Some j /\ (j <= n)%nat.
Proof.
  revert n. induction s as [|c t IH]; intros n H Hn.
  - simpl in Hn. assert (n = 0)%nat by lia. subst n. simpl in *.
    rewrite H. exists 0%nat. split; [reflexivity|lia].
  - simpl find. destruct (starts_with w (c :: t)) eqn:E.
    + exists 0%nat. split; [reflexivity|lia].
    + destruct n as [|n]; [simpl in H; congruence|].
      simpl in H, Hn. destruct (IH n H) as [j [Hj Hle]]; [lia|].
      rewrite Hj. exists (S j). split; [reflexivity|lia].
Qed.

Lemma skipn_app_length {A : Type} (u v : list A) :
  skipn (List.length u) (u ++ v) = v.
Proof. induction u; simpl; auto. Qed.

Lemma firstn_app_length {A : Type} (u v : list A) :
  firstn (List.length u) (u ++ v) = u.
Proof. induction u; simpl; [now destruct v|now f_equal]. Qed.

Lemma slice_middle (u v w : pystr) :
  slice (u ++ v ++ w) (List.length u) (List.length u + List.length v) = v.
Proof.
  unfold slice. rewrite skipn_app_length.
  replace (List.length u + List.length v - List.length u)%nat
    with (List.length v) by lia.
  apply firstn_app_length.
Qed.

Lemma skipn_length_app {A : Type} (u v s : list A) :
  skipn (List.length (u ++ v)) s = skipn (List.length v) (skipn (List.length u) s).
Proof. now rewrite length_app, Nat.add_comm, skipn_skipn. Qed.

(** ** Facts about the matcher *)

Section Matcher.
Context {RT : Runtime}.
Import Re.

Lemma rmatch_lits (w : pystr) (pos : nat) (rest : pystr) (m : marks) (k : cont) :
  rmatch (lits w) pos rest m k =
  if starts_with w rest
  then k (pos + List.length w)%nat (skipn (List.length w) rest) m
  else None.
Proof.
  revert pos rest. induction w as [|a w IH]; intros pos rest.
  - simpl. now rewrite Nat.add_0_r.
  - cbn [lits fold_right rmatch]. fold (lits w).
    destruct rest as [|b rest]; [reflexivity|].
    cbn [in_set starts_with]. rewrite N.eqb_sym.
    destruct (a =? b); [|reflexivity].
    rewrite IH. cbn [andb List.length skipn].
    now rewrite Nat.add_succ_r.
Qed.

(** A lazy [.+?]-style loop stops at the first place where the rest of
    the pattern, which begins with the literal [w], succeeds. *)
Lemma lazy_more_find (w : pystr) (k F : cont) :
  (forall p r m, k p r m = if starts_with w r then F p r m else None) ->
  (forall p r m, starts_with w r = true -> F p r m <> None) ->
  forall rest pos m,
    lazy_more Any None pos rest m k =
    match find w rest with
    | Some j => F (pos + j)%nat (skipn j rest) m
    | None => None
    end.
Proof.
  intros Hk HF. induction rest as [|c t IH]; intros pos m.
  - cbn [lazy_more find]. rewrite Hk.
    destruct (starts_with w []) eqn:E.
    + rewrite Nat.add_0_r. cbn [skipn].
      destruct (F pos [] m) eqn:EF; [reflexivity|].
      now apply HF in EF.
    + reflexivity.
  - cbn [lazy_more find]. rewrite Hk.
    destruct (starts_with w (c :: t)) eqn:E.
    + rewrite Nat.add_0_r. cbn [skipn].
      destruct (F pos (c :: t) m) eqn:EF; [reflexivity|].
      now apply HF in EF.
    + cbn [in_set allows andb less_one option_map]. rewrite IH.
      destruct (find w t) as [j|]; cbn [option_map]; [|reflexivity].
      cbn [skipn]. now rewrite Nat.add_succ_r.
Qed.

(** A greedy [.*] takes the text to its end when the rest of the pattern
    succeeds there. *)
Lemma greedy_to_end (k : cont) (rest : pystr) (pos : nat) (m : marks) :
  (forall p m', k p [] m' = Some (p, m')) ->
  greedy_more Any None pos rest m k = Some ((pos + List.length rest)%nat, m).
Proof.
  intros Hk. revert pos. induction rest as [|c t IH]; intros pos.
  - cbn. now rewrite Hk, Nat.add_0_r.
  - cbn [greedy_more in_set allows andb less_one option_map].
    rewrite IH. cbn [List.length]. now rewrite Nat.add_succ_r.
Qed.

End Matcher.

Section Marker.
Context {RT : Runtime}.
Import Re.

Lemma find_length (w s : pystr) (j : nat) :
  find w s = Some j ->
  List.length (firstn j s) = j /\
  List.length s =
    (j + List.length w + List.length (skipn (j + List.length w) s))%nat.
Proof.
  intros H. pose proof (find_split _ _ _ H) as Hs.
  pose proof (find_le _ _ _ H) as Hj.
  split; [now apply firstn_length_le|].
  apply (f_equal (@List.length _)) in Hs.
  rewrite !length_app, firstn_length_le in Hs by exact Hj. lia.
Qed.

Lemma try_at_marker (text : pystr) (pos : nat) (rest : pystr) :
  try_at marker_re text pos rest false false =
  match marker_at rest with
  | Some (x, _) =>
      Some {| m_string := text; m_start := pos;
              m_end := (pos + List.length rest)%nat;
              m_marks :=
                [(1, (pos, pos + List.length (comment x)));
                 (2, (pos + 5, pos + 5 + List.length (subst_expr x)))]%nat |}
  | None => None
  end.
Proof.
  unfold try_at, marker_re, marker_at, marker_open.
  cbn [rmatch andb]. rewrite rmatch_lits, starts_with_concat.
  destruct (starts_with (str "<!-- ") rest) eqn:E1; [|reflexivity].
  cbn [andb rmatch]. rewrite rmatch_lits.
  rewrite skipn_length_app.
  pose proof (starts_with_split _ _ E1) as S1.
  set (r1 := skipn (List.length (str "<!-- ")) rest) in *.
  destruct (starts_with (str "{{subst:") r1) eqn:E2; [|reflexivity].
  pose proof (starts_with_split _ _ E2) as S2.
  cbn [exactly in_set option_map].
  set (r2 := skipn (List.length (str "{{subst:")) r1) in *.
  destruct r2 as [|c r]; [reflexivity|].
  assert (Hlen : List.length rest = (14 + List.length r)%nat).
  { rewrite S1, S2, !length_app. simpl. lia. }
  rewrite (lazy_more_find marker_close)
    with (F := fun p r' m =>
                 Some ((p + 6 + List.length (skipn 6 r'))%nat,
                       (1, (pos, p + 6)) :: (2, (pos + 5, p + 2)) :: m)%nat).
  - destruct (find marker_close r) as [j|] eqn:Ef; [|reflexivity].
    destruct (find_length _ _ _ Ef) as [Hj Hr].
    rewrite skipn_skipn. f_equal. f_equal.
    + change (List.length marker_close) with 6%nat in Hr.
      replace (6 + j)%nat with (j + 6)%nat by lia. simpl List.length. lia.
    + unfold comment, subst_expr. rewrite !length_app. cbn [List.length].
      rewrite Hj. simpl List.length.
      replace (S (pos + 5 + 8) + j + 6)%nat
        with (pos + (5 + (8 + (S j + 2) + 4)))%nat by lia.
      replace (S (pos + 5 + 8) + j + 2)%nat
        with (pos + 5 + (8 + (S j + 2)))%nat by lia.
      reflexivity.
  - intros p r' m. unfold marker_close. rewrite starts_with_concat.
    rewrite rmatch_lits.
    destruct (starts_with (str "}}") r'); [|reflexivity].
    rewrite rmatch_lits.
    destruct (starts_with (str " -->") _); [|reflexivity].
    cbn [andb]. rewrite greedy_to_end by reflexivity.
    rewrite skipn_skipn. simpl List.length.
    replace (p + 2 + 4)%nat with (p + 6)%nat by lia. reflexivity.
  - intros; discriminate.
Qed.

Lemma marker_at_nil : marker_at [] = None.
Proof. reflexivity. Qed.

Lemma marker_at_split (s x post : pystr) :
  marker_at s = Some (x, post) -> s = comment x ++ post /\ x <> [].
Proof.
  unfold marker_at. destruct (starts_with marker_open s) eqn:E; [|discriminate].
  apply starts_with_split in E.
  destruct (skipn (List.length marker_open) s) as [|c r]; [discriminate|].
  destruct (find marker_close r) as [j|] eqn:Ef; [|discriminate].
  intros H. injection H as <- <-. split; [|discriminate].
  rewrite E. apply find_split in Ef. rewrite Ef at 1.
  unfold comment, subst_expr, marker_open, marker_close.
  rewrite <- !app_assoc. reflexivity.
Qed.

End Marker.

Section Substitution.
Context {RT : Runtime}.
Import Re.

(** Past a match that reaches the end of the text nothing is left. *)
Lemma sub_scan_marker_skip (repl : match_obj -> result pystr)
    (text : pystr) (rest : pystr) (pos : nat) :
  sub_scan marker_re repl text pos rest (List.length rest) = Ok [].
Proof.
  revert pos. induction rest as [|c t IH]; intros pos.
  - cbn [sub_scan List.length]. rewrite try_at_marker, marker_at_nil.
    reflexivity.
  - cbn [sub_scan List.length]. rewrite IH. reflexivity.
Qed.

(** The groups of the match of a marker comment with [x]. *)
Lemma marker_groups (p0 x post : pystr) (e : nat) :
  let m := {| m_string := p0 ++ comment x ++ post;
              m_start := List.length p0;
              m_end := e;
              m_marks :=
                [(1, (List.length p0, List.length p0 + List.length (comment x)));
                 (2, (List.length p0 + 5,
                      List.length p0 + 5 + List.length (subst_expr x)))]%nat |} in
  group m 1 = Some (comment x) /\ group m 2 = Some (subst_expr x).
Proof.
  unfold group. cbn [lookup_mark Nat.eqb m_marks m_string]. split.
  - now rewrite slice_middle.
  - replace (p0 ++ comment x ++ post)
      with ((p0 ++ str "<!-- ") ++ subst_expr x ++ (str " -->" ++ post))
      by (unfold comment; now rewrite <- !app_assoc).
    replace (List.length p0 + 5)%nat with (List.length (p0 ++ str "<!-- "))
      by (rewrite length_app; reflexivity).
    now rewrite slice_middle.
Qed.

(** The replacement for the match of a marker comment with [x]. *)
Lemma replacement_marker (date p0 x post : pystr) (e : nat) :
  replacement date
    {| m_string := p0 ++ comment x ++ post;
       m_start := List.length p0;
       m_end := e;
       m_marks :=
         [(1, (List.length p0, List.length p0 + List.length (comment x)));
          (2, (List.length p0 + 5,
               List.length p0 + 5 + List.length (subst_expr x)))]%nat |} =
  Ok (regenerated date x).
Proof.
  destruct (marker_groups p0 x post e) as [G1 G2].
  unfold replacement. now rewrite G1, G2.
Qed.

(** The substitution of the script against the reference reading. *)
Lemma sub_scan_marker (date p0 s : pystr) :
  sub_scan marker_re (replacement date) (p0 ++ s) (List.length p0) s 0 =
  Ok (expected_text date s).
Proof.
  revert p0. induction s as [|c t IH]; intros p0.
  - cbn [sub_scan]. rewrite try_at_marker, marker_at_nil. reflexivity.
  - cbn [sub_scan]. rewrite try_at_marker. unfold expected_text.
    cbn [first_marker].
    destruct (marker_at (c :: t)) as [[x post]|] eqn:E.
    + destruct (marker_at_split _ _ _ E) as [Hs _].
      rewrite Hs at 1 2. rewrite replacement_marker. cbn [rbind m_end].
      replace (List.length p0 + List.length (c :: t) =? List.length p0)%nat
        with false by (symmetry; apply Nat.eqb_neq; simpl; lia).
      replace (List.length p0 + List.length (c :: t) - List.length p0 - 1)%nat
        with (List.length t) by (simpl; lia).
      rewrite sub_scan_marker_skip. cbn [rbind app]. now rewrite app_nil_r.
    + replace (p0 ++ c :: t) with ((p0 ++ [c]) ++ t)
        by now rewrite <- app_assoc.
      replace (S (List.length p0)) with (List.length (p0 ++ [c]))
        by (rewrite length_app; simpl; lia).
      rewrite IH. cbn [rbind]. unfold expected_text.
      destruct (first_marker t) as [[[pre x] post]|]; reflexivity.
Qed.

Lemma updated_text_expected (date text : pystr) :
  updated_text date text = Ok (expected_text date text).
Proof. exact (sub_scan_marker date [] text). Qed.

(** The leftmost marker comment splits the text. *)
Lemma first_marker_split (s pre x post : pystr) :
  first_marker s = Some (pre, x, post) ->
  s = pre ++ comment x ++ post /\ x <> [].
Proof.
  revert pre. induction s as [|c t IH]; intros pre H; cbn [first_marker] in H.
  - rewrite marker_at_nil in H. discriminate.
  - destruct (marker_at (c :: t)) as [[x' post']|] eqn:E.
    + injection H as <- <- <-. now apply marker_at_split.
    + destruct (first_marker t) as [[[pre' x'] post']|]; [|discriminate].
      injection H as <- <- <-.
      destruct (IH pre' eq_refl) as [-> Hx]. now split.
Qed.

(** A marker comment at the head of the text is seen by [marker_at]. *)
Lemma marker_at_comment (x post : pystr) :
  x <> [] -> marker_at (comment x ++ post) <> None.
Proof.
  intros Hx. destruct x as [|c x']; [congruence|].
  unfold marker_at.
  replace (comment (c :: x') ++ post)
    with (marker_open ++ c :: x' ++ marker_close ++ post)
    by (unfold comment, subst_expr, marker_open, marker_close;
        now rewrite <- !app_assoc).
  rewrite starts_with_app, skipn_app_length.
  destruct (find_some marker_close (x' ++ marker_close ++ post)
              (List.length x')) as [j [Hj _]].
  - rewrite skipn_app_length. apply starts_with_app.
  - rewrite length_app. lia.
  - rewrite Hj. discriminate.
Qed.

Lemma first_marker_at (s x post : pystr) :
  marker_at s = Some (x, post) -> first_marker s = Some ([], x, post).
Proof. intros H. destruct s; cbn [first_marker]; now rewrite H. Qed.

Lemma first_marker_complete (s : pystr) :
  contains_marker s -> first_marker s <> None.
Proof.
  intros [pre [x [post [Hx ->]]]].
  induction pre as [|c pre IH]; cbn [first_marker app].
  - destruct (marker_at (comment x ++ post)) as [[x' post']|] eqn:E.
    + now rewrite (first_marker_at _ _ _ E).
    + now apply marker_at_comment in E.
  - destruct (marker_at (c :: pre ++ comment x ++ post)) as [[x' post']|].
    + discriminate.
    + destruct (first_marker (pre ++ comment x ++ post)) as [[[p x'] q]|].
      * discriminate.
      * exact IH.
Qed.

(** When the opening of the comment with [x] is the first opening of the
    text and its closing the first closing after one character, it is
    the leftmost marker comment. *)
Lemma first_marker_first (pre x post : pystr) :
  find marker_open (pre ++ comment x ++ post) = Some (List.length pre) ->
  find marker_close (tl x ++ marker_close ++ post) = Some (List.length (tl x)) ->
  x <> [] ->
  first_marker (pre ++ comment x ++ post) = Some (pre, x, post).
Proof.
  intros Hopen Hclose Hx.
  assert (Hat : marker_at (comment x ++ post) = Some (x, post)).
  { destruct x as [|c x']; [congruence|]. cbn [tl] in Hclose.
    unfold marker_at.
    replace (comment (c :: x') ++ post)
      with (marker_open ++ c :: x' ++ marker_close ++ post)
      by (unfold comment, subst_expr, marker_open, marker_close;
          now rewrite <- !app_assoc).
    rewrite starts_with_app, skipn_app_length, Hclose.
    rewrite firstn_app_length.
    replace (x' ++ marker_close ++ post) with ((x' ++ marker_close) ++ post)
      by now rewrite <- app_assoc.
    replace (List.length x' + List.length marker_close)%nat
      with (List.length (x' ++ marker_close)) by now rewrite length_app.
    now rewrite skipn_app_length. }
  assert (Hbefore : forall i, (i < List.length pre)%nat ->
            marker_at (skipn i (pre ++ comment x ++ post)) = None).
  { intros i Hi. unfold marker_at.
    now rewrite (find_before _ _ _ i Hopen Hi). }
  clear Hopen Hclose. induction pre as [|c pre IH].
  - cbn [app]. now apply first_marker_at.
  - cbn [app first_marker].
    pose proof (Hbefore 0%nat ltac:(simpl; lia)) as H0.
    cbn [skipn app] in H0. rewrite H0.
    rewrite IH; [reflexivity|].
    intros i Hi. apply (Hbefore (S i)). simpl. lia.
Qed.

(** No marker comment starts before the leftmost one. *)
Lemma first_marker_min (s pre x post : pystr) :
  first_marker s = Some (pre, x, post) ->
  forall i, (i < List.length pre)%nat -> marker_at (skipn i s) = None.
Proof.
  revert pre. induction s as [|c t IH]; intros pre H i Hi;
    cbn [first_marker] in H.
  - rewrite marker_at_nil in H. discriminate.
  - destruct (marker_at (c :: t)) as [[x' post']|] eqn:E.
    + injection H as <- <- <-. simpl in Hi. lia.
    + destruct (first_marker t) as [[[pre' x'] post']|] eqn:F; [|discriminate].
      injection H as <- <- <-. destruct i as [|i]; [exact E|].
      cbn [skipn]. apply (IH pre' eq_refl). simpl in Hi. lia.
Qed.

Lemma first_marker_leftmost (s pre x post p x' q : pystr) :
  first_marker s = Some (pre, x, post) ->
  s = p ++ comment x' ++ q -> x' <> [] ->
  (List.length pre <= List.length p)%nat.
Proof.
  intros H Hs Hx'.
  destruct (Nat.le_gt_cases (List.length pre) (List.length p)) as [Hle|Hgt];
    [exact Hle|].
  pose proof (first_marker_min s pre x post H (List.length p) Hgt) as Hnone.
  rewrite Hs, skipn_app_length in Hnone.
  now apply marker_at_comment in Hnone.
Qed.

End Substitution.

Section Decoding.
Context {RT : Runtime}.
Import Codec.

Lemma utf8_encode_ascii (s : pystr) :
  Forall (fun c => c < 128) s -> utf8_encode s = Ok s.
Proof.
  induction 1 as [|c t Hc _ IH]; [reflexivity|].
  cbn [utf8_encode]. unfold utf8_encode_char.
  replace (c <? 0x80) with true by (symmetry; apply N.ltb_lt; exact Hc).
  rewrite IH. reflexivity.
Qed.

Lemma escape_run_plain (s : pybytes) :
  Forall (fun b => b <> 92) s -> escape_run Plain s = Ok s.
Proof.
  induction 1 as [|b t Hb _ IH]; [reflexivity|].
  cbn [escape_run escape_step rbind]. unfold plain_step.
  replace (b =? 92) with false by (symmetry; now apply N.eqb_neq).
  cbn [fst snd]. rewrite IH. reflexivity.
Qed.

(** X13: on a format string of ASCII characters without a backslash the
    decoding changes nothing. *)
Lemma decode_ascii (s : pystr) :
  Forall (fun c => c < 128 /\ c <> 92) s -> decode s = Ok s.
Proof.
  intros H. unfold decode, unicode_escape_decode.
  rewrite utf8_encode_ascii by (eapply Forall_impl; [|exact H]; now intros c [? ?]).
  cbn [rbind]. apply escape_run_plain.
  eapply Forall_impl; [|exact H]. now intros c [? ?].
Qed.

End Decoding.

Section FormatFacts.
Context {RT : Runtime}.
Import Format.

Lemma format_scan_brace_free (template : pystr) (args : list pystr)
    (an : autonumber) (s : pystr) :
  brace_free s -> format_scan template args an InText s = Ok s.
Proof.
  induction 1 as [|c t [Ho Hc] _ IH]; [reflexivity|].
  cbn [format_scan].
  replace (c =? open_brace) with false by (symmetry; now apply N.eqb_neq).
  replace (c =? close_brace) with false by (symmetry; now apply N.eqb_neq).
  rewrite IH. reflexivity.
Qed.

(** A template without braces formats to itself. *)
Lemma str_format_brace_free (template : pystr) (args : list pystr) :
  brace_free template -> str_format template args = Ok template.
Proof. apply format_scan_brace_free. Qed.

(** One automatic field between two texts without braces. *)
Lemma str_format_one_field (before after arg : pystr) (args : list pystr) :
  brace_free before -> brace_free after ->
  str_format (before ++ open_brace :: close_brace :: after) (arg :: args) =
  Ok (before ++ arg ++ after).
Proof.
  intros Hb Ha. unfold str_format.
  generalize (before ++ open_brace :: close_brace :: after) at 1.
  intros template. induction Hb as [|c t [Ho Hc] _ IH].
  - cbn. rewrite format_scan_brace_free by exact Ha. reflexivity.
  - cbn [app format_scan].
    replace (c =? open_brace) with false by (symmetry; now apply N.eqb_neq).
    replace (c =? close_brace) with false by (symmetry; now apply N.eqb_neq).
    rewrite IH. reflexivity.
Qed.

(** The message of the date error. *)
Lemma date_message (date : pystr) :
  str_format (str "Date '{}' should be in yyyy-mm-dd format") [date] =
  Ok (str "Date '" ++ date ++ str "' should be in yyyy-mm-dd format").
Proof.
  apply (str_format_one_field (str "Date '") (str "' should be in yyyy-mm-dd format"));
    unfold brace_free; repeat constructor; discriminate.
Qed.

End FormatFacts.

Section Dates.
Context {RT : Runtime}.
Import Re.

Lemma greedy_more_zero (cs : charset) (pos : nat) (rest : pystr) (m : marks)
    (k : cont) :
  greedy_more cs (Some 0%nat) pos rest m k = k pos rest m.
Proof.
  destruct rest as [|c t]; cbn [greedy_more allows]; [reflexivity|].
  now rewrite andb_false_r.
Qed.

Lemma fullmatch_date_shape (d : pystr) :
  matched (re_fullmatch date_re d) = date_shape d.
Proof.
  unfold re_fullmatch, try_at, date_re, date_shape, matched.
  repeat first
    [ rewrite greedy_more_zero
    | progress cbn [rmatch exactly in_set option_map Nat.sub andb negb
                    Nat.eqb List.length]
    | reflexivity
    | match goal with
      | |- context [if unicode_Nd ?c then _ else _] => destruct (unicode_Nd c)
      | |- context [if (?c =? 45) then _ else _] => destruct (c =? 45)
      | |- context [match ?l with [] => _ | _ :: _ => _ end] =>
          is_var l; destruct l as [|? l]
      end ].
Qed.
End Dates.

Section ScriptFacts.
Context {RT : Runtime}.
Import Client.
Local Open Scope prog_scope.

(** A run of [publish] that ends well had a text to publish and made
    exactly four calls. *)
Lemma publish_calls (W : Type) (c : world W) (w : W)
    (title summary : pystr) (r : result pystr) :
  outcome_of c (publish title summary r) w = Ok tt ->
  exists site page text,
    r = Ok text /\
    calls_of c (publish title summary r) w =
    [Called (Site (str "en")); Called (Page site title);
     Called (set_text page text); Called (save page summary false)].
Proof.
  unfold outcome_of, calls_of, publish, call. cbn [bind lift run].
  destruct (respond c (Site (str "en")) w) as [[site|e] w1];
    [|discriminate].
  destruct (respond c (Page site title) w1) as [[page|e] w2];
    [|discriminate].
  destruct r as [text|e]; [|discriminate]. cbn [bind lift run].
  destruct (respond c (set_text page text) w2) as [[[]|e] w3];
    [|discriminate].
  destruct (respond c (save page summary false) w3) as [[[]|e] w4];
    [|discriminate].
  intros _. now exists site, page, text.
Qed.

(** The script without a file, once the format string is decoded. *)
Lemma save_json_without_file (argv : list pystr) (format_string : pystr) :
  List.length argv = 4%nat ->
  decode (argv_at argv 1) = Ok format_string ->
  save_json argv =
  publish (argv_at argv 2) (argv_at argv 3) (Ok format_string).
Proof.
  intros Hlen Hdec. unfold save_json. rewrite Hlen, Hdec. reflexivity.
Qed.

(** The script with a file, once the format string is decoded. *)
Lemma save_json_with_file (argv : list pystr) (format_string : pystr) :
  (5 <= List.length argv)%nat ->
  decode (argv_at argv 1) = Ok format_string ->
  save_json argv =
  (content <- call (read_file (argv_at argv 4)) ;;
   publish (argv_at argv 2) (argv_at argv 3)
     (page_text format_string (Some content))).
Proof.
  intros Hlen Hdec. unfold save_json.
  replace (List.length argv <? 4)%nat with false
    by (symmetry; apply Nat.ltb_ge; lia).
  replace (5 <=? List.length argv)%nat with true
    by (symmetry; apply Nat.leb_le; lia).
  rewrite Hdec. reflexivity.
Qed.

(** A run of the script with a file that ends well: the file was read,
    and the text of lines 18 to 21 was published. *)
Lemma save_json_with_file_calls (argv : list pystr) (format_string : pystr)
    (W : Type) (c : world W) (w : W) :
  (5 <= List.length argv)%nat ->
  decode (argv_at argv 1) = Ok format_string ->
  outcome_of c (save_json argv) w = Ok tt ->
  exists content w' site page text,
    respond c (read_file (argv_at argv 4)) w = (Ok content, w') /\
    page_text format_string (Some content) = Ok text /\
    calls_of c (save_json argv) w =
    [Called (read_file (argv_at argv 4)); Called (Site (str "en"));
     Called (Page site (argv_at argv 2)); Called (set_text page text);
     Called (save page (argv_at argv 3) false)].
Proof.
  intros Hlen Hdec. rewrite (save_json_with_file argv format_string Hlen Hdec).
  unfold outcome_of, calls_of, call. cbn [bind run].
  destruct (respond c (read_file (argv_at argv 4)) w) as [[content|e] w'];
    [|discriminate].
  intros Hout.
  destruct (publish_calls W c w' (argv_at argv 2) (argv_at argv 3)
              (page_text format_string (Some content)))
    as [site [page [text [Htext Hcalls]]]].
  - unfold outcome_of.
    destruct (run c (publish (argv_at argv 2) (argv_at argv 3)
                       (page_text format_string (Some content))) w')
      as [[calls w''] out]. exact Hout.
  - exists content, w', site, page, text. repeat split; [exact Htext|].
    unfold calls_of in Hcalls.
    destruct (run c (publish (argv_at argv 2) (argv_at argv 3)
                       (page_text format_string (Some content))) w')
      as [[calls w''] out]. cbn [fst] in *. now rewrite Hcalls.
Qed.

End ScriptFacts.

Section MarkerFacts.
Context {RT : Runtime}.
Import Re.

Lemma first_marker_here (s pre x post : pystr) :
  first_marker s = Some (pre, x, post) ->
  exists post', marker_at (comment x ++ post) = Some (x, post').
Proof.
  revert pre. induction s as [|c t IH]; intros pre H; cbn [first_marker] in H.
  - rewrite marker_at_nil in H. discriminate.
  - destruct (marker_at (c :: t)) as [[x' post']|] eqn:E.
    + injection H as <- <- <-.
      destruct (marker_at_split _ _ _ E) as [Hs _]. rewrite <- Hs.
      now exists post'.
    + destruct (first_marker t) as [[[pre' x'] post']|]; [|discriminate].
      injection H as <- <- <-. now apply (IH pre').
Qed.

End MarkerFacts.

Section UpdateDataPage.
Context {RT : Runtime}.
Import Re Client.

(** C1: for every page text that contains the marker pattern, the match
    runs from the marker comment to the end of the text, its group 1 is the
    comment and its group 2 the [{{subst:...}}] expression, and the new
    text is what precedes the match, then group 1, a newline, and group 2
    with [...] replaced by the date. On the text
    [A<!-- {{subst:X...Y}} -->trailing junk] with the date [2024-06-01] the
    new text is [A<!-- {{subst:X...Y}} -->], a newline,
    [{{subst:X2024-06-01Y}}]. *)
Theorem marker_span_replaced :
  (forall date text : pystr,
     contains_marker text ->
     exists (pre x post : pystr) (m : match_obj),
       text = pre ++ comment x ++ post /\ x <> [] /\
       try_at marker_re text (List.length pre) (comment x ++ post) false false
         = Some m /\
       m_start m = List.length pre /\
       m_end m = List.length text /\
       group m 1 = Some (comment x) /\
       group m 2 = Some (subst_expr x) /\
       updated_text date text =
         Ok (pre ++ comment x ++ [newline]
               ++ str_replace (subst_expr x) (str "...") date)) /\
  updated_text (str "2024-06-01")
    (str "A<!-- {{subst:X...Y}} -->trailing junk") =
  Ok (str "A<!-- {{subst:X...Y}} -->" ++ [newline]
        ++ str "{{subst:X2024-06-01Y}}").
Proof.
  split.
  - intros date text Hc.
    destruct (first_marker text) as [[[pre x] post]|] eqn:E;
      [|now apply first_marker_complete in Hc].
    destruct (first_marker_split _ _ _ _ E) as [Htext Hx].
    destruct (first_marker_here _ _ _ _ E) as [post' Hat].
    pose proof (try_at_marker text (List.length pre) (comment x ++ post)) as Ht.
    rewrite Hat in Ht.
    destruct (marker_groups pre x post
                (List.length pre + List.length (comment x ++ post))) as [G1 G2].
    rewrite <- Htext in G1, G2.
    eexists pre, x, post, _. split; [exact Htext|]. split; [exact Hx|].
    split; [exact Ht|]. cbn [m_start m_end].
    split; [reflexivity|].
    split; [pose proof (f_equal (@List.length _) Htext) as Hl;
            rewrite length_app in Hl; now symmetry|].
    split; [exact G1|]. split; [exact G2|].
    rewrite updated_text_expected. unfold expected_text. now rewrite E.
  - rewrite updated_text_expected. reflexivity.
Qed.

(** C5: a page text in which no marker comment occurs is left as it is,
    and no exception is raised. *)
Theorem no_marker_unchanged (date text : pystr) :
  ~ contains_marker text -> updated_text date text = Ok text.
Proof.
  intros Hno. rewrite updated_text_expected. unfold expected_text.
  destruct (first_marker text) as [[[pre x] post]|] eqn:E; [|reflexivity].
  destruct (first_marker_split _ _ _ _ E) as [Htext Hx].
  exfalso. apply Hno. now exists pre, x, post.
Qed.

(** C6: with its three arguments given and a date that
    [re.fullmatch] refuses, the script raises
    [Exception("Date '<date>' should be in yyyy-mm-dd format")] as its
    first step: in every world it makes no call at all. *)
Theorem malformed_date_aborts (argv : list pystr) (date : pystr) :
  (4 <= List.length argv)%nat ->
  nth_error argv 2 = Some date ->
  re_fullmatch date_re date = None ->
  let error :=
    Exception (str "Date '" ++ date ++ str "' should be in yyyy-mm-dd format") in
  update_data_page argv = Raise error /\
  forall (W : Type) (c : world W) (w : W),
    run c (update_data_page argv) w = ([], w, Raised error).
Proof.
  intros Hlen Hdate Hno error.
  assert (Hprog : update_data_page argv = Raise error).
  { unfold update_data_page.
    replace (List.length argv <? 4)%nat with false
      by (symmetry; apply Nat.ltb_ge; lia).
    unfold argv_at. rewrite (nth_error_nth argv 2 [] Hdate).
    rewrite Hno, date_message. reflexivity. }
  split; [exact Hprog|]. intros W c w. now rewrite Hprog.
Qed.

(** C7: the date check is the shape of the string alone: ten characters,
    decimal digits but for a hyphen at the fifth and the eighth place.
    [24-06-01], [2024-6-1] and [2024/06/01] fail it; [2024-06-01] and
    [9999-99-99], which is no day of any calendar, pass. *)
Theorem date_validation_lexical :
  (forall d : pystr, matched (re_fullmatch date_re d) = date_shape d) /\
  re_fullmatch date_re (str "24-06-01") = None /\
  re_fullmatch date_re (str "2024-6-1") = None /\
  re_fullmatch date_re (str "2024/06/01") = None /\
  matched (re_fullmatch date_re (str "2024-06-01")) = true /\
  matched (re_fullmatch date_re (str "9999-99-99")) = true.
Proof.
  assert (Hnone : forall d, date_shape d = false -> re_fullmatch date_re d = None).
  { intros d Hd. rewrite <- fullmatch_date_shape in Hd.
    now destruct (re_fullmatch date_re d). }
  split; [exact fullmatch_date_shape|].
  repeat split; try (apply Hnone); try rewrite fullmatch_date_shape;
    unfold date_shape, str; cbn [list_ascii_of_string map];
    try reflexivity;
    rewrite ?unicode_Nd_ascii by (vm_compute; reflexivity);
    reflexivity.
Qed.

End UpdateDataPage.

Section SaveJson.
Context {RT : Runtime}.
Import Client.
Local Open Scope prog_scope.

(** C8: with fewer than three arguments after the script's name, that is
    [len(sys.argv) < 4], either script raises its usage exception as its
    first step: in every world it makes no call, to the wiki or to the
    file system. *)
Theorem missing_arguments_abort (argv : list pystr) :
  (List.length argv < 4)%nat ->
  let usage_save :=
    Exception (str "provide format string and title and edit summary (and optionally filename)") in
  let usage_update :=
    Exception (str "provide title and date of dump and edit summary") in
  save_json argv = Raise usage_save /\
  update_data_page argv = Raise usage_update /\
  forall (W : Type) (c : world W) (w : W),
    run c (save_json argv) w = ([], w, Raised usage_save) /\
    run c (update_data_page argv) w = ([], w, Raised usage_update).
Proof.
  intros Hlen usage_save usage_update.
  assert (Hs : save_json argv = Raise usage_save).
  { unfold save_json.
    now replace (List.length argv <? 4)%nat with true
      by (symmetry; apply Nat.ltb_lt; lia). }
  assert (Hu : update_data_page argv = Raise usage_update).
  { unfold update_data_page.
    now replace (List.length argv <? 4)%nat with true
      by (symmetry; apply Nat.ltb_lt; lia). }
  split; [exact Hs|]. split; [exact Hu|].
  intros W c w. now rewrite Hs, Hu.
Qed.

(** C9: without a fourth argument the script does what [publish] does
    with the decoded format string itself, braces or not: [str.format] is
    not called, and a run that ends well has set the text of the page to
    the decoded format string and saved it. *)
Theorem text_verbatim_without_file (argv : list pystr) (format_string : pystr) :
  List.length argv = 4%nat ->
  decode (argv_at argv 1) = Ok format_string ->
  save_json argv =
    publish (argv_at argv 2) (argv_at argv 3) (Ok format_string) /\
  page_text format_string None = Ok format_string /\
  forall (W : Type) (c : world W) (w : W),
    outcome_of c (save_json argv) w = Ok tt ->
    exists site page,
      calls_of c (save_json argv) w =
      [Called (Site (str "en")); Called (Page site (argv_at argv 2));
       Called (set_text page format_string);
       Called (save page (argv_at argv 3) false)].
Proof.
  intros Hlen Hdec.
  pose proof (save_json_without_file argv format_string Hlen Hdec) as Hprog.
  split; [exact Hprog|]. split; [reflexivity|].
  intros W c w. rewrite Hprog. intros Hout.
  destruct (publish_calls W c w _ _ _ Hout) as [site [page [text [Ht Hc]]]].
  injection Ht as <-. now exists site, page.
Qed.

(** C10: with a fourth argument, when the file reads as the empty string
    the text of the page is the decoded format string itself, as it is
    without a file; the substitution is made exactly when the content read
    is not empty. *)
Theorem empty_file_text_verbatim (argv : list pystr) (format_string : pystr) :
  (5 <= List.length argv)%nat ->
  decode (argv_at argv 1) = Ok format_string ->
  page_text format_string (Some []) = Ok format_string /\
  page_text format_string (Some []) = page_text format_string None /\
  (forall content : pystr,
     content <> [] ->
     page_text format_string (Some content) =
     Format.str_format format_string [content]) /\
  forall (W : Type) (c : world W) (w w' : W),
    respond c (read_file (argv_at argv 4)) w = (Ok [], w') ->
    outcome_of c (save_json argv) w = Ok tt ->
    exists site page,
      calls_of c (save_json argv) w =
      [Called (read_file (argv_at argv 4)); Called (Site (str "en"));
       Called (Page site (argv_at argv 2));
       Called (set_text page format_string);
       Called (save page (argv_at argv 3) false)].
Proof.
  intros Hlen Hdec. split; [reflexivity|]. split; [reflexivity|].
  split; [now intros [|c t] Hne|].
  intros W c w w' Hread Hout.
  destruct (save_json_with_file_calls argv format_string W c w Hlen Hdec Hout)
    as [content [w'' [site [page [text [Hr [Ht Hc]]]]]]].
  rewrite Hread in Hr. injection Hr as <- <-.
  injection Ht as <-. now exists site, page.
Qed.

(** C3, as the code has it: with a fourth argument, a run that ends well
    has read the file and set the text of the page; when the content read
    is not empty that text is [format_string.format(content)], and when
    the decoded format string holds no brace it is the decoded format
    string itself, whatever the file holds. *)
Theorem file_text_formatted (argv : list pystr) (format_string : pystr) :
  (5 <= List.length argv)%nat ->
  decode (argv_at argv 1) = Ok format_string ->
  (forall (W : Type) (c : world W) (w : W),
     outcome_of c (save_json argv) w = Ok tt ->
     exists content w' site page text,
       respond c (read_file (argv_at argv 4)) w = (Ok content, w') /\
       calls_of c (save_json argv) w =
       [Called (read_file (argv_at argv 4)); Called (Site (str "en"));
        Called (Page site (argv_at argv 2)); Called (set_text page text);
        Called (save page (argv_at argv 3) false)] /\
       (content <> [] -> Format.str_format format_string [content] = Ok text) /\
       (brace_free format_string -> text = format_string)) /\
  (forall content : pystr,
     content <> [] ->
     page_text format_string (Some content) =
     Format.str_format format_string [content]) /\
  (brace_free format_string ->
   forall content : pystr,
     page_text format_string (Some content) = Ok format_string).
Proof.
  intros Hlen Hdec.
  assert (Hfmt : forall content : pystr, content <> [] ->
            page_text format_string (Some content) =
            Format.str_format format_string [content])
    by now intros [|c t] Hne.
  assert (Hfree : brace_free format_string -> forall content : pystr,
            page_text format_string (Some content) = Ok format_string).
  { intros Hb [|c t]; [reflexivity|]. cbn [page_text truthy].
    now apply str_format_brace_free. }
  split; [|split; [exact Hfmt|exact Hfree]].
  intros W c w Hout.
  destruct (save_json_with_file_calls argv format_string W c w Hlen Hdec Hout)
    as [content [w' [site [page [text [Hr [Ht Hc]]]]]]].
  exists content, w', site, page, text.
  split; [exact Hr|]. split; [exact Hc|]. split.
  - intros Hne. now rewrite <- Hfmt.
  - intros Hb. rewrite (Hfree Hb) in Ht. now injection Ht.
Qed.

(** C4: the format string [é], the one code point 233, holds no
    backslash, and its decoding is not [é]: the two bytes of its UTF-8
    encoding are read as the two code points 195 and 169. *)
Theorem decode_mangles_non_ascii :
  Codec.utf8_encode [233] = Ok [195; 169] /\
  decode [233] = Ok [195; 169] /\
  decode [233] <> Ok [233].
Proof.
  split; [reflexivity|]. split; [reflexivity|]. discriminate.
Qed.

End SaveJson.

(** ** The claims at concrete inputs

    Runs of the theorems above, and the places where the code departs from
    what was said of it, with the interpreter [small_runtime]. *)

(** The page text of the example, which holds one marker comment. *)
Lemma marker_span_replaced_witness :
  exists (pre x post : pystr) (m : Re.match_obj),
    str "A<!-- {{subst:X...Y}} -->trailing junk" = pre ++ comment x ++ post /\
    x <> [] /\
    @Re.try_at small_runtime marker_re
      (str "A<!-- {{subst:X...Y}} -->trailing junk")
      (List.length pre) (comment x ++ post) false false = Some m /\
    Re.m_start m = List.length pre /\
    Re.m_end m = List.length (str "A<!-- {{subst:X...Y}} -->trailing junk") /\
    Re.group m 1 = Some (comment x) /\
    Re.group m 2 = Some (subst_expr x) /\
    @updated_text small_runtime (str "2024-06-01")
      (str "A<!-- {{subst:X...Y}} -->trailing junk") =
    Ok (pre ++ comment x ++ [newline]
          ++ str_replace (subst_expr x) (str "...") (str "2024-06-01")).
Proof.
  apply (proj1 (@marker_span_replaced small_runtime)).
  exists (str "A"), (str "X...Y"), (str "trailing junk").
  split; [discriminate|reflexivity].
Defined.

(** Two marker comments: the code keeps the first and drops the second,
    where the rewrite was said to be at the last. *)
Lemma last_marker_counterexample :
  @updated_text small_runtime (str "2024-06-01")
    (str "<!-- {{subst:A...}} -->x<!-- {{subst:B...}} -->y") =
  Ok (str "<!-- {{subst:A...}} -->" ++ [newline]
        ++ str "{{subst:A2024-06-01}}") /\
  @updated_text small_runtime (str "2024-06-01")
    (str "<!-- {{subst:A...}} -->x<!-- {{subst:B...}} -->y") <>
  Ok (str "<!-- {{subst:A...}} -->x<!-- {{subst:B...}} -->" ++ [newline]
        ++ str "{{subst:B2024-06-01}}").
Proof.
  split; [vm_compute; reflexivity|vm_compute; discriminate].
Qed.

Lemma no_marker_unchanged_witness :
  @updated_text small_runtime (str "2024-06-01")
    (str "== Data ==  <!-- {{subst: --> and {{subst:x}} without a comment") =
  Ok (str "== Data ==  <!-- {{subst: --> and {{subst:x}} without a comment").
Proof.
  apply (@no_marker_unchanged small_runtime).
  intros H. apply first_marker_complete in H.
  apply H. vm_compute. reflexivity.
Defined.

Lemma malformed_date_aborts_witness :
  @update_data_page small_runtime
    [str "update_data_page.py"; str "Module:data"; str "2024-6-1"; str "update"] =
  Client.Raise
    (Exception (str "Date '2024-6-1' should be in yyyy-mm-dd format")).
Proof.
  refine (proj1 (@malformed_date_aborts small_runtime _ (str "2024-6-1") _ _ _));
    [simpl; lia|reflexivity|vm_compute; reflexivity].
Defined.

Lemma missing_arguments_abort_witness :
  @save_json small_runtime [str "save_json.py"; str "return {}"; str "Module:data"] =
  Client.Raise
    (Exception (str "provide format string and title and edit summary (and optionally filename)")).
Proof.
  refine (proj1 (@missing_arguments_abort small_runtime _ _)). simpl. lia.
Defined.

(** Without a file the placeholder stays in the text. *)
Lemma text_verbatim_without_file_witness :
  @save_json small_runtime
    [str "save_json.py"; str "return {}"; str "Module:data"; str "update"] =
  publish (str "Module:data") (str "update") (Ok (str "return {}")).
Proof.
  refine (proj1 (@text_verbatim_without_file small_runtime _ (str "return {}") _ _));
    [reflexivity|vm_compute; reflexivity].
Defined.

(** An empty file: the text saved is the format string itself. *)
Lemma empty_file_text_verbatim_witness :
  let argv := [str "save_json.py"; str "return {}"; str "Module:data";
               str "update"; str "data.lua"] in
  exists site page,
    Client.calls_of Client.in_memory (@save_json small_runtime argv)
      (empty_memory [(str "data.lua", [])]) =
    [Client.Called (Client.read_file (str "data.lua"));
     Client.Called (Client.Site (str "en"));
     Client.Called (Client.Page site (str "Module:data"));
     Client.Called (Client.set_text page (str "return {}"));
     Client.Called (Client.save page (str "update") false)].
Proof.
  refine (proj2 (proj2 (proj2
    (@empty_file_text_verbatim small_runtime _ (str "return {}") _ _)))
      Client.memory Client.in_memory _ _ _ _);
    [simpl; lia|vm_compute; reflexivity|vm_compute; reflexivity
    |vm_compute; reflexivity].
Defined.

(** A file that is not empty: its content stands where the field was. *)
Lemma file_text_formatted_witness :
  let argv := [str "save_json.py"; str "return {}"; str "Module:data";
               str "update"; str "data.lua"] in
  exists content w' site page text,
    Client.respond Client.in_memory (Client.read_file (str "data.lua"))
      (empty_memory [(str "data.lua", str "{1, 2}")]) = (Ok content, w') /\
    Client.calls_of Client.in_memory (@save_json small_runtime argv)
      (empty_memory [(str "data.lua", str "{1, 2}")]) =
    [Client.Called (Client.read_file (str "data.lua"));
     Client.Called (Client.Site (str "en"));
     Client.Called (Client.Page site (str "Module:data"));
     Client.Called (Client.set_text page text);
     Client.Called (Client.save page (str "update") false)] /\
    (content <> [] ->
     @Format.str_format small_runtime (str "return {}") [content] = Ok text) /\
    (brace_free (str "return {}") -> text = str "return {}").
Proof.
  refine (proj1
    (@file_text_formatted small_runtime
       [str "save_json.py"; str "return {}"; str "Module:data";
        str "update"; str "data.lua"] (str "return {}") _ _)
    Client.memory Client.in_memory _ _);
    [simpl; lia|vm_compute; reflexivity|vm_compute; reflexivity].
Defined.

(** Where the text is not [format_string.format(content)], and where a
    format string without a field does not stay as it is: an empty file
    leaves the field in the text saved, though formatting with the empty
    string would take it out; and of a doubled brace one brace is saved. *)
Lemma file_text_counterexample :
  Client.edits (snd (fst
    (Client.run Client.in_memory
       (@save_json small_runtime
          [str "save_json.py"; str "a{}b"; str "T"; str "s"; str "f"])
       (empty_memory [(str "f", [])])))) =
    [(str "T", str "a{}b", str "s", false)] /\
  @Format.str_format small_runtime (str "a{}b") [[]] = Ok (str "ab") /\
  Client.edits (snd (fst
    (Client.run Client.in_memory
       (@save_json small_runtime
          [str "save_json.py"; str "a{{b"; str "T"; str "s"; str "f"])
       (empty_memory [(str "f", str "x")])))) =
    [(str "T", str "a{b", str "s", false)] /\
  str "a{b" <> str "a{{b".
Proof.
  repeat split; try (vm_compute; reflexivity). vm_compute. discriminate.
Qed.

(** * Further properties of the scripts *)

(** ** Further facts about strings and the marker *)

Lemma starts_with_within (w a b : pystr) :
  (List.length w <= List.length a)%nat ->
  starts_with w (a ++ b) = starts_with w a.
Proof.
  revert a. induction w as [|x w IH]; intros a H; [reflexivity|].
  destruct a as [|y a]; [simpl in H; lia|].
  cbn [app starts_with]. rewrite IH by (simpl in H; lia). reflexivity.
Qed.

(** The leftmost occurrence of [w], when it lies within [a], does not
    depend on what follows [a]. *)
Lemma find_within (w a b b' : pystr) (j : nat) :
  find w (a ++ b) = Some j -> (j + List.length w <= List.length a)%nat ->
  find w (a ++ b') = Some j.
Proof.
  revert j. induction a as [|c a IH]; intros j H Hj.
  - simpl in Hj. assert (j = 0%nat) by lia. subst j.
    destruct w as [|x w]; [|simpl in Hj; lia].
    now destruct b'.
  - cbn [app find] in *.
    assert (Hw : (List.length w <= List.length (c :: a))%nat) by lia.
    pose proof (starts_with_within w (c :: a) b Hw) as E1.
    pose proof (starts_with_within w (c :: a) b' Hw) as E2.
    cbn [app] in E1, E2. rewrite E2, <- E1.
    destruct (starts_with w (c :: a ++ b)); [exact H|].
    destruct (find w (a ++ b)) as [n|] eqn:F; [|discriminate].
    injection H as <-. rewrite (IH n eq_refl); [reflexivity|].
    simpl in Hj. lia.
Qed.

(** A text free of the first character of [w] is passed over. *)
Lemma find_after (c0 : char) (w pre rest : pystr) :
  Forall (fun c => c <> c0) pre ->
  find (c0 :: w) (pre ++ (c0 :: w) ++ rest) = Some (List.length pre).
Proof.
  pose proof (starts_with_app (c0 :: w) rest) as E.
  set (tail := (c0 :: w) ++ rest) in *.
  induction 1 as [|c t Hc _ IH].
  - cbn [app List.length]. destruct tail; cbn [find]; now rewrite E.
  - cbn [app find starts_with List.length].
    replace (c0 =? c) with false by (symmetry; apply N.eqb_neq; congruence).
    cbn [andb]. now rewrite IH.
Qed.

Lemma find_none_head (w s : pystr) (c : char) :
  find w (c :: s) = None -> starts_with w (c :: s) = false /\ find w s = None.
Proof.
  cbn [find]. destruct (starts_with w (c :: s)); [discriminate|].
  destruct (find w s); [discriminate|]. now split.
Qed.

(** Where [old] does not occur, [replace] changes nothing. *)
Lemma replace_from_absent (old new s : pystr) :
  find old s = None -> replace_from old new 0 s = s.
Proof.
  induction s as [|c t IH]; intros H; [reflexivity|].
  destruct (find_none_head _ _ _ H) as [Hs Ht].
  cbn [replace_from]. rewrite Hs, IH by exact Ht. reflexivity.
Qed.

Lemma str_replace_absent (s old new : pystr) :
  old <> [] -> find old s = None -> str_replace s old new = s.
Proof.
  intros Ho H. destruct old as [|o old]; [congruence|].
  now apply replace_from_absent.
Qed.

(** Characters that are not the first of [old] are kept. *)
Lemma replace_from_keep (o : char) (old new u s : pystr) :
  Forall (fun c => c <> o) u ->
  replace_from (o :: old) new 0 (u ++ s) = u ++ replace_from (o :: old) new 0 s.
Proof.
  induction 1 as [|c t Hc _ IH]; [reflexivity|].
  cbn [app replace_from starts_with].
  replace (o =? c) with false by (symmetry; apply N.eqb_neq; congruence).
  cbn [andb]. now rewrite IH.
Qed.

Lemma replace_from_skip (old new s : pystr) (k : nat) :
  (k <= List.length s)%nat ->
  replace_from old new k s = replace_from old new 0 (skipn k s).
Proof.
  revert s. induction k as [|k IH]; intros s H; [reflexivity|].
  destruct s as [|c t]; [simpl in H; lia|].
  cbn [replace_from skipn]. apply IH. simpl in H. lia.
Qed.

Lemma replace_from_hit (old new s : pystr) :
  old <> [] ->
  replace_from old new 0 (old ++ s) = new ++ replace_from old new 0 s.
Proof.
  intros Ho. destruct old as [|o old]; [congruence|].
  pose proof (starts_with_app (o :: old) s) as E.
  change ((o :: old) ++ s) with (o :: (old ++ s)) in *.
  cbn [replace_from]. rewrite E. f_equal.
  replace (List.length (o :: old) - 1)%nat with (List.length old)
    by (simpl; lia).
  rewrite replace_from_skip by (rewrite length_app; lia).
  now rewrite skipn_app_length.
Qed.

Lemma find_absent_free (o : char) (old s : pystr) :
  Forall (fun c => c <> o) s -> find (o :: old) s = None.
Proof.
  induction 1 as [|c t Hc _ IH]; [reflexivity|].
  cbn [find starts_with].
  replace (o =? c) with false by (symmetry; apply N.eqb_neq; congruence).
  cbn [andb]. now rewrite IH.
Qed.

Lemma comment_unfold (x post : pystr) :
  comment x ++ post = marker_open ++ x ++ marker_close ++ post.
Proof.
  unfold comment, subst_expr, marker_open, marker_close.
  now rewrite <- !app_assoc.
Qed.

(** The nearest closing after the first character of [x] is the closing of
    the comment, when [marker_at] reads the comment with [x]. *)
Lemma marker_at_close (x post post' : pystr) :
  marker_at (comment x ++ post) = Some (x, post') ->
  find marker_close (tl x ++ marker_close ++ post) = Some (List.length (tl x)).
Proof.
  rewrite comment_unfold. unfold marker_at.
  rewrite starts_with_app, skipn_app_length.
  destruct x as [|c x'].
  - rewrite app_nil_l.
    destruct (marker_close ++ post) as [|c r]; [discriminate|].
    destruct (find marker_close r) as [j|] eqn:F; discriminate.
  - rewrite <- app_comm_cons. cbn [tl].
    destruct (find marker_close (x' ++ marker_close ++ post)) as [j|] eqn:F;
      [|discriminate].
    intros H. injection H as Hx _.
    destruct (find_length _ _ _ F) as [Hj _].
    assert (Hl : List.length x' = j)
      by (rewrite <- Hj; f_equal; symmetry; exact Hx).
    now rewrite Hl.
Qed.

(** The same comment in front of another text is read the same way. *)
Lemma marker_at_tail (x post post' q : pystr) :
  marker_at (comment x ++ post) = Some (x, post') ->
  marker_at (comment x ++ q) = Some (x, q).
Proof.
  intros H. pose proof (marker_at_close _ _ _ H) as Hc.
  destruct x as [|c x'].
  - rewrite comment_unfold in H. unfold marker_at in H.
    rewrite starts_with_app, skipn_app_length, app_nil_l in H.
    destruct (marker_close ++ post) as [|c r]; [discriminate|].
    destruct (find marker_close r); discriminate.
  - cbn [tl] in Hc.
    replace (x' ++ marker_close ++ post) with ((x' ++ marker_close) ++ post)
      in Hc by now rewrite <- app_assoc.
    apply (find_within _ _ _ q) in Hc; [|rewrite length_app; lia].
    rewrite <- app_assoc in Hc.
    rewrite comment_unfold. unfold marker_at.
    rewrite starts_with_app, skipn_app_length, <- app_comm_cons, Hc.
    rewrite firstn_app_length.
    replace (x' ++ marker_close ++ q) with ((x' ++ marker_close) ++ q)
      by now rewrite <- app_assoc.
    replace (List.length x' + List.length marker_close)%nat
      with (List.length (x' ++ marker_close)) by now rewrite length_app.
    now rewrite skipn_app_length.
Qed.

(** Before the comment, an opening would be the start of a marker comment:
    the closing of the comment closes it too. *)
Lemma opening_is_marker (pre x post : pystr) (i : nat) :
  x <> [] -> (i < List.length pre)%nat ->
  starts_with marker_open (skipn i (pre ++ comment x ++ post)) = true ->
  marker_at (skipn i (pre ++ comment x ++ post)) <> None.
Proof.
  intros Hx Hi Hopen. unfold marker_at. rewrite Hopen.
  rewrite skipn_skipn.
  set (u := pre ++ marker_open ++ x).
  assert (Hs : pre ++ comment x ++ post = u ++ marker_close ++ post).
  { unfold u. rewrite comment_unfold. now rewrite <- !app_assoc. }
  assert (Hu : (List.length marker_open + i < List.length u)%nat).
  { unfold u. rewrite !length_app. destruct x; [congruence|]. simpl. lia. }
  rewrite Hs, skipn_app. clearbody u.
  replace (List.length marker_open + i - List.length u)%nat with 0%nat by lia.
  cbn [skipn].
  destruct (skipn (List.length marker_open + i) u) as [|c r] eqn:E.
  - apply (f_equal (@List.length _)) in E. rewrite length_skipn in E.
    cbn [List.length] in E. lia.
  - rewrite <- app_comm_cons.
    destruct (find_some marker_close (r ++ marker_close ++ post)
                (List.length r)) as [j [Hj _]].
    + rewrite skipn_app_length. apply starts_with_app.
    + rewrite length_app. lia.
    + rewrite Hj. discriminate.
Qed.

(** Whether the opening stands at a place before the comment does not
    depend on what follows the comment. *)
Lemma opening_within (pre x post q : pystr) (i : nat) :
  (i < List.length pre)%nat ->
  starts_with marker_open (skipn i (pre ++ comment x ++ q)) =
  starts_with marker_open (skipn i (pre ++ comment x ++ post)).
Proof.
  intros Hi.
  assert (H : forall t, starts_with marker_open (skipn i (pre ++ comment x ++ t))
              = starts_with marker_open (skipn i (pre ++ comment x))).
  { intros t. rewrite app_assoc, skipn_app.
    replace (i - List.length (pre ++ comment x))%nat with 0%nat
      by (rewrite length_app; lia).
    cbn [skipn]. apply starts_with_within.
    rewrite length_skipn, length_app. unfold comment, subst_expr.
    rewrite !length_app. simpl. lia. }
  now rewrite !H.
Qed.

Lemma first_marker_from (pre x post : pystr) :
  marker_at (comment x ++ post) = Some (x, post) ->
  (forall i, (i < List.length pre)%nat ->
     marker_at (skipn i (pre ++ comment x ++ post)) = None) ->
  first_marker (pre ++ comment x ++ post) = Some (pre, x, post).
Proof.
  intros Hat. induction pre as [|c pre IH]; intros Hbefore.
  - cbn [app]. now apply first_marker_at.
  - cbn [app first_marker].
    pose proof (Hbefore 0%nat ltac:(simpl; lia)) as H0.
    cbn [skipn app] in H0. rewrite H0.
    rewrite IH; [reflexivity|].
    intros i Hi. apply (Hbefore (S i)). simpl. lia.
Qed.

(** The leftmost marker comment stays the leftmost when the text after it
    is replaced. *)
Lemma first_marker_tail (s pre x post q : pystr) :
  first_marker s = Some (pre, x, post) ->
  first_marker (pre ++ comment x ++ q) = Some (pre, x, q).
Proof.
  intros E.
  destruct (first_marker_split _ _ _ _ E) as [Hs Hx].
  destruct (first_marker_here _ _ _ _ E) as [post' Hat].
  apply first_marker_from.
  - now apply (marker_at_tail x post post').
  - intros i Hi.
    pose proof (first_marker_min _ _ _ _ E i Hi) as Hnone. rewrite Hs in Hnone.
    unfold marker_at. rewrite (opening_within pre x post q i Hi).
    destruct (starts_with marker_open (skipn i (pre ++ comment x ++ post)))
      eqn:Ho; [|reflexivity].
    now apply (opening_is_marker pre x post i Hx Hi) in Ho.
Qed.

(** A comment whose [x] holds no closing brace, after a text that holds no
    opening angle bracket, is the leftmost marker comment. *)
Lemma first_marker_located (pre x post : pystr) :
  Forall (fun c => c <> 60) pre -> Forall (fun c => c <> 125) x -> x <> [] ->
  first_marker (pre ++ comment x ++ post) = Some (pre, x, post).
Proof.
  intros Hpre Hx Hne. apply first_marker_first; [| |exact Hne].
  - rewrite comment_unfold.
    exact (find_after 60 (tl marker_open) pre (x ++ marker_close ++ post) Hpre).
  - apply (find_after 125 (tl marker_close) (tl x) post).
    destruct Hx; [constructor|assumption].
Qed.

Section UpdatedText.
Context {RT : Runtime}.

(** X1: the substitution never raises, whatever the page holds and whatever
    the date is, and it keeps the anchor: the new text holds a marker
    comment exactly when the old text does. *)
Theorem updated_text_keeps_marker (date text : pystr) :
  exists text' : pystr,
    updated_text date text = Ok text' /\
    (contains_marker text' <-> contains_marker text).
Proof.
  rewrite updated_text_expected. eexists. split; [reflexivity|].
  unfold expected_text.
  destruct (first_marker text) as [[[pre x] post]|] eqn:E; [|reflexivity].
  destruct (first_marker_split _ _ _ _ E) as [Htext Hx]. split; intros _.
  - now exists pre, x, post.
  - exists pre, x, ([newline] ++ str_replace (subst_expr x) (str "...") date).
    split; [exact Hx|]. reflexivity.
Qed.

(** X2: an update absorbs the update before it. The text after an update
    with the date [d1] and then one with the date [d2] is the text after
    the update with [d2] alone; with [d1 = d2], a second run changes
    nothing. *)
Theorem updated_text_absorbs (d1 d2 text : pystr) :
  (text' <- updated_text d1 text ;; updated_text d2 text')%result =
  updated_text d2 text.
Proof.
  rewrite (updated_text_expected d1). cbn [rbind].
  rewrite !updated_text_expected. f_equal.
  destruct (first_marker text) as [[[pre x] post]|] eqn:E.
  - assert (H1 : expected_text d1 text =
                 pre ++ comment x
                   ++ [newline] ++ str_replace (subst_expr x) (str "...") d1)
      by (unfold expected_text; now rewrite E).
    rewrite H1. unfold expected_text.
    now rewrite (first_marker_tail text pre x post _ E), E.
  - assert (H1 : expected_text d1 text = text)
      by (unfold expected_text; now rewrite E).
    now rewrite H1.
Qed.

(** X3: when the expression of the leftmost marker comment holds no
    [...], the date plays no part: the text after the comment is replaced
    by a newline and the expression as it is. *)
Theorem updated_text_without_dots (date pre x post : pystr) :
  Forall (fun c => c <> 60) pre ->
  Forall (fun c => c <> 125) x -> x <> [] ->
  find (str "...") (subst_expr x) = None ->
  updated_text date (pre ++ comment x ++ post) =
  Ok (pre ++ comment x ++ [newline] ++ subst_expr x).
Proof.
  intros Hpre Hx Hne Hdots.
  rewrite updated_text_expected. unfold expected_text.
  rewrite (first_marker_located pre x post Hpre Hx Hne).
  unfold regenerated. rewrite str_replace_absent; [reflexivity|discriminate|exact Hdots].
Qed.

(** X4: the page the script is made for. With no opening angle bracket
    before the comment, and an expression [{{subst:a...b}}] in which [a]
    and [b] hold neither a full stop nor a closing brace, the new text is
    what precedes the comment, the comment, a newline and
    [{{subst:a<date>b}}]; what followed the comment is gone. *)
Theorem updated_text_fills_date (date pre a b post : pystr) :
  Forall (fun c => c <> 60) pre ->
  Forall (fun c => c <> 46 /\ c <> 125) a ->
  Forall (fun c => c <> 46 /\ c <> 125) b ->
  updated_text date (pre ++ comment (a ++ str "..." ++ b) ++ post) =
  Ok (pre ++ comment (a ++ str "..." ++ b) ++ [newline]
        ++ subst_expr (a ++ date ++ b)).
Proof.
  intros Hpre Ha Hb.
  assert (Ha1 : Forall (fun c => c <> 46) a)
    by (eapply Forall_impl; [|exact Ha]; now intros c [? ?]).
  assert (Hb1 : Forall (fun c => c <> 46) b)
    by (eapply Forall_impl; [|exact Hb]; now intros c [? ?]).
  assert (Hx : Forall (fun c => c <> 125) (a ++ str "..." ++ b)).
  { apply Forall_app. split; [eapply Forall_impl; [|exact Ha]; now intros c [? ?]|].
    apply Forall_app. split; [repeat constructor; discriminate|].
    eapply Forall_impl; [|exact Hb]. now intros c [? ?]. }
  rewrite updated_text_expected. unfold expected_text.
  rewrite (first_marker_located pre _ post Hpre Hx)
    by (destruct a; discriminate).
  unfold regenerated. do 4 f_equal.
  change (str_replace (subst_expr (a ++ str "..." ++ b)) (str "...") date)
    with (replace_from [46; 46; 46] date 0
            (str "{{subst:" ++ (a ++ [46; 46; 46] ++ b) ++ str "}}")).
  replace (str "{{subst:" ++ (a ++ [46; 46; 46] ++ b) ++ str "}}")
    with ((str "{{subst:" ++ a) ++ [46; 46; 46] ++ (b ++ str "}}"))
    by now rewrite <- !app_assoc.
  rewrite (replace_from_keep 46 [46; 46]).
  - rewrite (replace_from_hit [46; 46; 46]) by discriminate.
    rewrite (replace_from_absent [46; 46; 46]).
    + unfold subst_expr. now rewrite <- !app_assoc.
    + apply find_absent_free. apply Forall_app. split; [exact Hb1|].
      repeat constructor; discriminate.
  - apply Forall_app. split; [repeat constructor; discriminate|exact Ha1].
Qed.

End UpdatedText.

Section DecodeFacts.
Context {RT : Runtime}.
Import Codec Client.

(** A byte with its highest bit set is no backslash. *)
Lemma high_bit_not_backslash (a b : N) :
  N.testbit a 7 = true -> N.lor a b <> 92.
Proof.
  intros Ha H. apply (f_equal (fun v => N.testbit v 7)) in H.
  rewrite N.lor_spec, Ha in H. discriminate.
Qed.

Lemma utf8_encode_char_no_backslash (c : char) (bs : pybytes) :
  c <> 92 -> utf8_encode_char c = Some bs -> Forall (fun b => b <> 92) bs.
Proof.
  intros Hc. unfold utf8_encode_char.
  assert (Hsome : forall l : pybytes, Some l = Some bs -> l = bs)
    by (intros l H; now injection H).
  destruct (c <? 0x80).
  - intros H. apply Hsome in H. subst bs.
    apply Forall_cons; [exact Hc|apply Forall_nil].
  - destruct (c <? 0x800).
    + intros H. apply Hsome in H. subst bs.
      repeat (apply Forall_cons;
        [apply high_bit_not_backslash; reflexivity|]); apply Forall_nil.
    + destruct (c <? 0x10000).
      * destruct ((0xD800 <=? c) && (c <=? 0xDFFF)); [discriminate|].
        intros H. apply Hsome in H. subst bs.
        repeat (apply Forall_cons;
          [apply high_bit_not_backslash; reflexivity|]); apply Forall_nil.
      * destruct (c <? 0x110000); [|discriminate].
        intros H. apply Hsome in H. subst bs.
        repeat (apply Forall_cons;
          [apply high_bit_not_backslash; reflexivity|]); apply Forall_nil.
Qed.

Lemma utf8_encode_no_backslash (s : pystr) (bs : pybytes) :
  Forall (fun c => c <> 92) s -> utf8_encode s = Ok bs ->
  Forall (fun b => b <> 92) bs.
Proof.
  intros Hs. revert bs. induction Hs as [|c t Hc _ IH]; intros bs H.
  - injection H as <-. constructor.
  - cbn [utf8_encode] in H.
    destruct (utf8_encode_char c) as [l|] eqn:El; [|discriminate].
    destruct (utf8_encode t) as [tl|]; [|discriminate].
    injection H as <-. apply Forall_app. split.
    + now apply (utf8_encode_char_no_backslash c).
    + now apply IH.
Qed.

(** X5: a format string without a backslash is decoded to the bytes of its
    UTF-8 encoding, each byte read as one code point. *)
Theorem decode_gives_utf8_bytes (s : pystr) (bs : pybytes) :
  Forall (fun c => c <> 92) s ->
  utf8_encode s = Ok bs ->
  decode s = Ok bs.
Proof.
  intros Hs Hbs. unfold decode, unicode_escape_decode. rewrite Hbs.
  cbn [rbind]. apply escape_run_plain.
  now apply (utf8_encode_no_backslash s).
Qed.

(** Bytes that are no backslash pass through the decoder. *)
Lemma escape_run_plain_app (a bs : pybytes) :
  Forall (fun b => b <> 92) a ->
  escape_run Plain (a ++ bs) =
  (tl <- escape_run Plain bs ;; Ok (a ++ tl))%result.
Proof.
  induction 1 as [|b t Hb _ IH].
  - cbn [app]. now destruct (escape_run Plain bs).
  - cbn [app escape_run escape_step rbind]. unfold plain_step.
    replace (b =? 92) with false by (symmetry; now apply N.eqb_neq).
    cbn [fst snd]. rewrite IH.
    now destruct (escape_run Plain bs).
Qed.

Lemma ascii_parts (a : pystr) :
  Forall (fun c => c < 128 /\ c <> 92) a ->
  Forall (fun c => c < 128) a /\ Forall (fun c => c <> 92) a.
Proof.
  intros H. split; (eapply Forall_impl; [|exact H]); now intros c [? ?].
Qed.

(** X6: the two characters backslash and [n] in the format string become
    one newline; the text before them, ASCII without a backslash, stays,
    and the text after them is decoded in its turn. *)
Theorem decode_newline_escape (a b : pystr) :
  Forall (fun c => c < 128 /\ c <> 92) a ->
  Forall (fun c => c < 128) b ->
  decode (a ++ [92; 110] ++ b) =
  (b' <- decode b ;; Ok (a ++ [newline] ++ b'))%result.
Proof.
  intros Ha Hb. destruct (ascii_parts a Ha) as [Ha1 Ha2].
  unfold decode, unicode_escape_decode.
  rewrite (utf8_encode_ascii b Hb).
  rewrite utf8_encode_ascii.
  - cbn [rbind]. rewrite (escape_run_plain_app a _ Ha2).
    cbn. destruct (escape_run Plain b); reflexivity.
  - apply Forall_app. split; [exact Ha1|].
    constructor; [reflexivity|]. constructor; [reflexivity|exact Hb].
Qed.

(** X7: a format string that ends in a backslash, after ASCII text without
    one, cannot be decoded: the script raises [UnicodeDecodeError] as soon
    as the arguments are counted, and in every world it makes no call. *)
Theorem trailing_backslash_aborts (argv : list pystr) (a : pystr) :
  (4 <= List.length argv)%nat ->
  nth_error argv 1 = Some (a ++ [92]) ->
  Forall (fun c => c < 128 /\ c <> 92) a ->
  let error := UnicodeDecodeError (str "\ at end of string") in
  decode (a ++ [92]) = Raised error /\
  save_json argv = Raise error /\
  forall (W : Type) (c : world W) (w : W),
    run c (save_json argv) w = ([], w, Raised error).
Proof.
  intros Hlen Harg Ha error. destruct (ascii_parts a Ha) as [Ha1 Ha2].
  assert (Hdec : decode (a ++ [92]) = Raised error).
  { unfold decode, unicode_escape_decode. rewrite utf8_encode_ascii.
    - cbn [rbind]. now rewrite (escape_run_plain_app a _ Ha2).
    - apply Forall_app. split; [exact Ha1|]. now repeat constructor. }
  assert (Hprog : save_json argv = Raise error).
  { unfold save_json.
    replace (List.length argv <? 4)%nat with false
      by (symmetry; apply Nat.ltb_ge; lia).
    unfold argv_at. rewrite (nth_error_nth argv 1 [] Harg), Hdec.
    reflexivity. }
  split; [exact Hdec|]. split; [exact Hprog|].
  intros W c w. now rewrite Hprog.
Qed.

End DecodeFacts.

Section ScriptRuns.
Context {RT : Runtime}.
Import Client Format.
Local Open Scope prog_scope.

(** Text without braces is copied by the scan of the template. *)
Lemma format_scan_text (template : pystr) (args : list pystr)
    (an : autonumber) (a s : pystr) :
  brace_free a ->
  format_scan template args an InText (a ++ s) =
  (tl <- format_scan template args an InText s ;; Ok (a ++ tl))%result.
Proof.
  induction 1 as [|c t [Ho Hc] _ IH].
  - cbn [app]. now destruct (format_scan template args an InText s).
  - cbn [app format_scan].
    replace (c =? open_brace) with false by (symmetry; now apply N.eqb_neq).
    replace (c =? close_brace) with false by (symmetry; now apply N.eqb_neq).
    rewrite IH. now destruct (format_scan template args an InText s).
Qed.

(** Two automatic fields and one argument: the second field has no
    argument to take. *)
Lemma str_format_two_fields (a b c arg : pystr) :
  brace_free a -> brace_free b ->
  str_format
    (a ++ open_brace :: close_brace :: b ++ open_brace :: close_brace :: c)
    [arg] =
  Raised (IndexError
            (str "Replacement index 1 out of range for positional args tuple")).
Proof.
  intros Ha Hb. unfold str_format.
  generalize (a ++ open_brace :: close_brace
                :: b ++ open_brace :: close_brace :: c) at 1.
  intros template. rewrite (format_scan_text _ _ _ a _ Ha).
  cbn [format_scan N.eqb Pos.eqb open_brace close_brace get_field an_mode
       an_field_number getitem nth_error rbind fst snd].
  rewrite (format_scan_text _ _ _ b _ Hb).
  reflexivity.
Qed.

(** The script with its arguments counted and its date accepted. *)
Lemma update_data_page_valid (argv : list pystr) :
  (4 <= List.length argv)%nat ->
  matched (Re.re_fullmatch date_re (argv_at argv 2)) = true ->
  update_data_page argv =
  (site <- call (Site (str "en")) ;;
   page <- call (Page site (argv_at argv 1)) ;;
   text <- call (get_text page) ;;
   text' <- lift (updated_text (argv_at argv 2) text) ;;
   call (set_text page text') ;;
   call (save page (argv_at argv 3) false)).
Proof.
  intros Hlen Hdate. unfold update_data_page.
  replace (List.length argv <? 4)%nat with false
    by (symmetry; apply Nat.ltb_ge; lia).
  destruct (Re.re_fullmatch date_re (argv_at argv 2)); [reflexivity|discriminate].
Qed.

(** X8: with its arguments counted and its date accepted, a run of the
    updater that ends well made five calls and no other: the site [en],
    the page of the title, the reading of its text, the setting of the
    text to the substitution of what was read, and one save with the
    summary given, not minor. *)
Theorem update_run_rewrites_page (argv : list pystr) :
  (4 <= List.length argv)%nat ->
  matched (Re.re_fullmatch date_re (argv_at argv 2)) = true ->
  forall (W : Type) (c : world W) (w : W),
    outcome_of c (update_data_page argv) w = Ok tt ->
    exists site page text text' w2 w3,
      respond c (get_text page) w2 = (Ok text, w3) /\
      updated_text (argv_at argv 2) text = Ok text' /\
      calls_of c (update_data_page argv) w =
      [Called (Site (str "en")); Called (Page site (argv_at argv 1));
       Called (get_text page); Called (set_text page text');
       Called (save page (argv_at argv 3) false)].
Proof.
  intros Hlen Hdate W c w.
  rewrite (update_data_page_valid argv Hlen Hdate).
  unfold outcome_of, calls_of, call. cbn [bind run].
  destruct (respond c (Site (str "en")) w) as [[site|e] w1];
    [|discriminate].
  destruct (respond c (Page site (argv_at argv 1)) w1) as [[page|e] w2];
    [|discriminate].
  destruct (respond c (get_text page) w2) as [[text|e] w3] eqn:Hget;
    [|discriminate].
  destruct (updated_text (argv_at argv 2) text) as [text'|e] eqn:Hup;
    [|discriminate].
  cbn [bind lift run].
  destruct (respond c (set_text page text') w3) as [[[]|e] w4];
    [|discriminate].
  destruct (respond c (save page (argv_at argv 3) false) w4) as [[[]|e] w5];
    [|discriminate].
  intros _. exists site, page, text, text', w2, w3. now repeat split.
Qed.

(** X9: when the text of the page cannot be read, the updater ends on
    that exception after three calls: it sets no text and saves nothing. *)
Theorem failed_load_saves_nothing (argv : list pystr)
    (W : Type) (c : world W) (w w1 w2 w3 : W)
    (site : site_handle) (page : page_handle) (e : exn) :
  (4 <= List.length argv)%nat ->
  matched (Re.re_fullmatch date_re (argv_at argv 2)) = true ->
  respond c (Site (str "en")) w = (Ok site, w1) ->
  respond c (Page site (argv_at argv 1)) w1 = (Ok page, w2) ->
  respond c (get_text page) w2 = (Raised e, w3) ->
  run c (update_data_page argv) w =
  ([Called (Site (str "en")); Called (Page site (argv_at argv 1));
    Called (get_text page)], w3, Raised e).
Proof.
  intros Hlen Hdate Hs Hp Hg.
  rewrite (update_data_page_valid argv Hlen Hdate).
  unfold call. cbn [bind run]. now rewrite Hs, Hp, Hg.
Qed.

(** X10: when the file cannot be read, the saver ends on that exception
    after that one call: no site, no page, no text, no save. *)
Theorem failed_read_reaches_no_wiki (argv : list pystr) (format_string : pystr)
    (W : Type) (c : world W) (w w' : W) (e : exn) :
  (5 <= List.length argv)%nat ->
  decode (argv_at argv 1) = Ok format_string ->
  respond c (read_file (argv_at argv 4)) w = (Raised e, w') ->
  run c (save_json argv) w =
  ([Called (read_file (argv_at argv 4))], w', Raised e).
Proof.
  intros Hlen Hdec Hread.
  rewrite (save_json_with_file argv format_string Hlen Hdec).
  unfold call. cbn [bind run]. now rewrite Hread.
Qed.

(** X11: a format string that decodes to one automatic field between two
    texts without braces. A run that ends well read the file and set the
    text of the page to the first text, the content of the file and the
    second text, braces of the content kept as they are; with an empty
    file the text set is the decoded format string, field and all. *)
Theorem file_spliced_into_template (argv : list pystr) (before after : pystr) :
  (5 <= List.length argv)%nat ->
  decode (argv_at argv 1) =
    Ok (before ++ open_brace :: close_brace :: after) ->
  brace_free before -> brace_free after ->
  forall (W : Type) (c : world W) (w : W),
    outcome_of c (save_json argv) w = Ok tt ->
    exists content w' site page,
      respond c (read_file (argv_at argv 4)) w = (Ok content, w') /\
      calls_of c (save_json argv) w =
      [Called (read_file (argv_at argv 4)); Called (Site (str "en"));
       Called (Page site (argv_at argv 2));
       Called (set_text page
                 (match content with
                  | [] => before ++ open_brace :: close_brace :: after
                  | _ :: _ => before ++ content ++ after
                  end));
       Called (save page (argv_at argv 3) false)].
Proof.
  intros Hlen Hdec Hb Ha W c w Hout.
  destruct (save_json_with_file_calls argv _ W c w Hlen Hdec Hout)
    as [content [w' [site [page [text [Hr [Ht Hc]]]]]]].
  exists content, w', site, page. split; [exact Hr|].
  rewrite Hc. do 3 f_equal.
  destruct content as [|ch content].
  - cbn [page_text truthy] in Ht. now injection Ht as <-.
  - cbn [page_text truthy] in Ht.
    rewrite (str_format_one_field before after _ [] Hb Ha) in Ht.
    now injection Ht as <-.
Qed.

(** X12: a format string that decodes to two automatic fields, and a file
    that is not empty: [str.format] has one argument and raises
    [IndexError] for the second field. The saver ends on it after the
    site and the page are made: no text is set and nothing is saved. *)
Theorem second_field_aborts (argv : list pystr) (a b d content : pystr)
    (W : Type) (c : world W) (w w1 w2 w3 : W)
    (site : site_handle) (page : page_handle) :
  (5 <= List.length argv)%nat ->
  decode (argv_at argv 1) =
    Ok (a ++ open_brace :: close_brace
          :: b ++ open_brace :: close_brace :: d) ->
  brace_free a -> brace_free b -> content <> [] ->
  respond c (read_file (argv_at argv 4)) w = (Ok content, w1) ->
  respond c (Site (str "en")) w1 = (Ok site, w2) ->
  respond c (Page site (argv_at argv 2)) w2 = (Ok page, w3) ->
  run c (save_json argv) w =
  ([Called (read_file (argv_at argv 4)); Called (Site (str "en"));
    Called (Page site (argv_at argv 2))], w3,
   Raised (IndexError
             (str "Replacement index 1 out of range for positional args tuple"))).
Proof.
  intros Hlen Hdec Ha Hb Hne Hr Hs Hp.
  rewrite (save_json_with_file argv _ Hlen Hdec).
  unfold publish. unfold call. cbn [bind run]. rewrite Hr. cbn [bind run].
  rewrite Hs. cbn [bind run]. rewrite Hp.
  destruct content as [|ch content]; [congruence|].
  cbn [page_text truthy]. rewrite (str_format_two_fields a b d _ Ha Hb).
  reflexivity.
Qed.

End ScriptRuns.

(** ** The further properties at concrete inputs *)

Lemma updated_text_without_dots_witness :
  @updated_text small_runtime (str "2024-06-01")
    (str "== Data ==" ++ comment (str "CURRENTYEAR") ++ str "old line") =
  Ok (str "== Data ==" ++ comment (str "CURRENTYEAR") ++ [newline]
        ++ subst_expr (str "CURRENTYEAR")).
Proof.
  apply (@updated_text_without_dots small_runtime);
    [each_char|each_char|discriminate|reflexivity].
Defined.

Lemma updated_text_fills_date_witness :
  @updated_text small_runtime (str "2024-06-01")
    (str "== Data ==" ++ comment (str "#time:j F Y|" ++ str "..." ++ str "|en")
       ++ str "1 May 2024") =
  Ok (str "== Data ==" ++ comment (str "#time:j F Y|" ++ str "..." ++ str "|en")
        ++ [newline]
        ++ subst_expr (str "#time:j F Y|" ++ str "2024-06-01" ++ str "|en")).
Proof.
  apply (@updated_text_fills_date small_runtime); each_char.
Defined.

(** [é] and the euro sign. *)
Lemma decode_gives_utf8_bytes_witness :
  @decode small_runtime [233; 8364] = Ok [195; 169; 226; 130; 172].
Proof.
  apply (@decode_gives_utf8_bytes small_runtime);
    [each_char|reflexivity].
Defined.

Lemma decode_newline_escape_witness :
  @decode small_runtime (str "return {}" ++ [92; 110] ++ str "-- end\t") =
  (b' <- @decode small_runtime (str "-- end\t") ;;
   Ok (str "return {}" ++ [newline] ++ b'))%result.
Proof.
  apply (@decode_newline_escape small_runtime); each_char.
Defined.

Lemma trailing_backslash_aborts_witness :
  @save_json small_runtime
    [str "save_json.py"; str "return {}" ++ [92]; str "Module:data";
     str "update"] =
  Client.Raise (UnicodeDecodeError (str "\ at end of string")).
Proof.
  refine (proj1 (proj2
    (@trailing_backslash_aborts small_runtime _ (str "return {}") _ _ _)));
    [simpl; lia|reflexivity|each_char].
Defined.

Lemma update_run_rewrites_page_witness :
  let argv := [str "update_data_page.py"; str "Module:data";
               str "2024-06-01"; str "update"] in
  let w := wiki_memory (str "Module:data")
             (str "x<!-- {{subst:a...}} -->old") in
  exists site page text text' w2 w3,
    Client.respond Client.in_memory (Client.get_text page) w2 = (Ok text, w3) /\
    @updated_text small_runtime (argv_at argv 2) text = Ok text' /\
    Client.calls_of Client.in_memory (@update_data_page small_runtime argv) w =
    [Client.Called (Client.Site (str "en"));
     Client.Called (Client.Page site (argv_at argv 1));
     Client.Called (Client.get_text page);
     Client.Called (Client.set_text page text');
     Client.Called (Client.save page (argv_at argv 3) false)].
Proof.
  refine (@update_run_rewrites_page small_runtime _ _ _
            Client.memory Client.in_memory _ _);
    [simpl; lia|vm_compute; reflexivity|vm_compute; reflexivity].
Defined.

Lemma failed_load_saves_nothing_witness :
  Client.run offline
    (@update_data_page small_runtime
       [str "update_data_page.py"; str "Module:data"; str "2024-06-01";
        str "update"]) tt =
  ([Client.Called (Client.Site (str "en"));
    Client.Called (Client.Page 0%nat (str "Module:data"));
    Client.Called (Client.get_text 0%nat)], tt,
   Raised (ClientError (str "offline"))).
Proof.
  refine (@failed_load_saves_nothing small_runtime _ unit offline
            tt tt tt tt 0%nat 0%nat _ _ _ _ _ _);
    [simpl; lia|vm_compute; reflexivity|reflexivity|reflexivity|reflexivity].
Defined.

Lemma failed_read_reaches_no_wiki_witness :
  Client.run Client.in_memory
    (@save_json small_runtime
       [str "save_json.py"; str "return {}"; str "Module:data"; str "update";
        str "missing.lua"]) (empty_memory []) =
  ([Client.Called (Client.read_file (str "missing.lua"))], empty_memory [],
   Raised (OSError (str "missing.lua"))).
Proof.
  refine (@failed_read_reaches_no_wiki small_runtime _ (str "return {}")
            Client.memory Client.in_memory _ _ _ _ _ _);
    [simpl; lia|vm_compute; reflexivity|reflexivity].
Defined.

Lemma file_spliced_into_template_witness :
  let argv := [str "save_json.py"; str "return {}" ++ [92; 110];
               str "Module:data"; str "update"; str "data.lua"] in
  let w := empty_memory [(str "data.lua", str "{1, 2}")] in
  exists content w' site page,
    Client.respond Client.in_memory (Client.read_file (argv_at argv 4)) w =
      (Ok content, w') /\
    Client.calls_of Client.in_memory (@save_json small_runtime argv) w =
    [Client.Called (Client.read_file (argv_at argv 4));
     Client.Called (Client.Site (str "en"));
     Client.Called (Client.Page site (argv_at argv 2));
     Client.Called
       (Client.set_text page
          (match content with
           | [] => str "return " ++ Format.open_brace :: Format.close_brace
                     :: [newline]
           | _ :: _ => str "return " ++ content ++ [newline]
           end));
     Client.Called (Client.save page (argv_at argv 3) false)].
Proof.
  refine (@file_spliced_into_template small_runtime _ (str "return ")
            [newline] _ _ _ _ Client.memory Client.in_memory _ _);
    [simpl; lia|vm_compute; reflexivity|each_char|each_char
    |vm_compute; reflexivity].
Defined.

Lemma second_field_aborts_witness :
  Client.run Client.in_memory
    (@save_json small_runtime
       [str "save_json.py"; str "a{}b{}c"; str "Module:data"; str "update";
        str "data.lua"]) (empty_memory [(str "data.lua", str "x")]) =
  ([Client.Called (Client.read_file (str "data.lua"));
    Client.Called (Client.Site (str "en"));
    Client.Called (Client.Page 0%nat (str "Module:data"))],
   {| Client.files := [(str "data.lua", str "x")]; Client.wiki := [];
      Client.handles := [(str "Module:data", None)]; Client.edits := [] |},
   Raised (IndexError
             (str "Replacement index 1 out of range for positional args tuple"))).
Proof.
  refine (@second_field_aborts small_runtime _ (str "a") (str "b") (str "c")
            (str "x") Client.memory Client.in_memory _ _ _ _ 0%nat 0%nat
            _ _ _ _ _ _ _ _);
    [simpl; lia|vm_compute; reflexivity|each_char|each_char|discriminate
    |reflexivity|reflexivity|reflexivity].
Defined.

Lemma decode_ascii_witness :
  @decode small_runtime (str "return {}") = Ok (str "return {}").
Proof.
  apply (@decode_ascii small_runtime). each_char.
Defined.

(** * The leftmost marker comment *)

(** A comment whose closing is the nearest one after the first character
    of [x] is read by [marker_at] as the comment with [x], whatever
    follows it. *)
Lemma marker_at_nearest (x post : pystr) :
  x <> [] ->
  find marker_close (tl x ++ marker_close) = Some (List.length (tl x)) ->
  marker_at (comment x ++ post) = Some (x, post).
Proof.
  intros Hx Hnear. destruct x as [|c x']; [congruence|]. cbn [tl] in Hnear.
  rewrite <- (app_nil_r (x' ++ marker_close)) in Hnear.
  apply (find_within _ _ _ post) in Hnear; [|rewrite length_app; lia].
  rewrite <- app_assoc in Hnear.
  rewrite comment_unfold. unfold marker_at.
  rewrite starts_with_app, skipn_app_length, <- app_comm_cons, Hnear.
  rewrite firstn_app_length.
  replace (x' ++ marker_close ++ post) with ((x' ++ marker_close) ++ post)
    by now rewrite <- app_assoc.
  replace (List.length x' + List.length marker_close)%nat
    with (List.length (x' ++ marker_close)) by now rewrite length_app.
  now rewrite skipn_app_length.
Qed.

(** The comment before which no marker comment starts, and whose closing
    is the nearest, is the one [first_marker] finds. *)
Lemma first_marker_declared (pre x post : pystr) :
  x <> [] ->
  (forall p x' q : pystr,
     pre ++ comment x ++ post = p ++ comment x' ++ q -> x' <> [] ->
     (List.length pre <= List.length p)%nat) ->
  find marker_close (tl x ++ marker_close) = Some (List.length (tl x)) ->
  first_marker (pre ++ comment x ++ post) = Some (pre, x, post).
Proof.
  intros Hx Hleft Hnear. apply first_marker_from.
  - now apply marker_at_nearest.
  - intros i Hi.
    destruct (marker_at (skipn i (pre ++ comment x ++ post)))
      as [[x' q]|] eqn:E; [|reflexivity].
    destruct (marker_at_split _ _ _ E) as [Hs Hx'].
    pose proof (firstn_skipn i (pre ++ comment x ++ post)) as Hsplit.
    rewrite Hs in Hsplit. symmetry in Hsplit.
    pose proof (Hleft _ _ _ Hsplit Hx') as Hle.
    rewrite firstn_length_le in Hle by (rewrite length_app; lia). lia.
Qed.

(** Every text that holds a marker comment holds one before which no
    marker comment starts and whose closing is the nearest. *)
Lemma leftmost_marker_exists (text : pystr) :
  contains_marker text ->
  exists pre x post : pystr,
    text = pre ++ comment x ++ post /\ x <> [] /\
    (forall p x' q : pystr,
       text = p ++ comment x' ++ q -> x' <> [] ->
       (List.length pre <= List.length p)%nat) /\
    find marker_close (tl x ++ marker_close) = Some (List.length (tl x)).
Proof.
  intros Hc.
  destruct (first_marker text) as [[[pre x] post]|] eqn:E;
    [|now apply first_marker_complete in Hc].
  destruct (first_marker_split _ _ _ _ E) as [Htext Hx].
  destruct (first_marker_here _ _ _ _ E) as [post' Hat].
  exists pre, x, post. split; [exact Htext|]. split; [exact Hx|]. split.
  - intros p x' q. now apply (first_marker_leftmost text pre x post).
  - pose proof (marker_at_close _ _ _ Hat) as Hclose.
    replace (tl x ++ marker_close ++ post)
      with ((tl x ++ marker_close) ++ post) in Hclose
      by now rewrite <- app_assoc.
    apply (find_within _ _ _ []) in Hclose; [|rewrite length_app; lia].
    now rewrite app_nil_r in Hclose.
Qed.

Section LeftmostMarker.
Context {RT : Runtime}.

(** C2, as the code has it: in a page text with two marker comments, the
    second starting after the first has ended, the rewrite is at the
    first. When no marker comment starts before the comment with [x], and
    the closing of that comment is the nearest one after the first
    character of [x], the new text is what precedes that comment, the
    comment, a newline and its expression with the date. All that followed
    the comment, the later comment with [y] included, is discarded: the
    new text is the one the page would get if it ended with the first
    comment. *)
Theorem leftmost_marker_rewritten (date pre x mid y rest : pystr) :
  x <> [] -> y <> [] ->
  (forall p x' q : pystr,
     pre ++ comment x ++ mid ++ comment y ++ rest = p ++ comment x' ++ q ->
     x' <> [] -> (List.length pre <= List.length p)%nat) ->
  find marker_close (tl x ++ marker_close) = Some (List.length (tl x)) ->
  updated_text date (pre ++ comment x ++ mid ++ comment y ++ rest) =
    Ok (pre ++ comment x ++ [newline]
          ++ str_replace (subst_expr x) (str "...") date) /\
  updated_text date (pre ++ comment x ++ mid ++ comment y ++ rest) =
    updated_text date (pre ++ comment x).
Proof.
  intros Hx _ Hleft Hnear.
  pose proof (first_marker_declared pre x (mid ++ comment y ++ rest)
                Hx Hleft Hnear) as E.
  pose proof (first_marker_tail _ pre x _ [] E) as E0.
  rewrite app_nil_r in E0.
  rewrite !updated_text_expected. unfold expected_text.
  now rewrite E, E0.
Qed.

End LeftmostMarker.

(** Two marker comments, the second after the first: the text after the
    update holds the first and nothing of the second. *)
Lemma leftmost_marker_rewritten_witness :
  @updated_text small_runtime (str "2024-06-01")
    (str "Data " ++ comment (str "A...") ++ str " and "
       ++ comment (str "B...") ++ str " end") =
    Ok (str "Data " ++ comment (str "A...") ++ [newline]
          ++ str_replace (subst_expr (str "A...")) (str "...")
               (str "2024-06-01")) /\
  @updated_text small_runtime (str "2024-06-01")
    (str "Data " ++ comment (str "A...") ++ str " and "
       ++ comment (str "B...") ++ str " end") =
    @updated_text small_runtime (str "2024-06-01")
      (str "Data " ++ comment (str "A...")).
Proof.
  apply (@leftmost_marker_rewritten small_runtime (str "2024-06-01")
           (str "Data ") (str "A...") (str " and ") (str "B...") (str " end"));
    [discriminate|discriminate| |reflexivity].
  intros p x' q H Hx'.
  apply (first_marker_leftmost
           (str "Data " ++ comment (str "A...") ++ str " and "
              ++ comment (str "B...") ++ str " end")
           (str "Data ") (str "A...")
           (str " and " ++ comment (str "B...") ++ str " end") p x' q);
    [vm_compute; reflexivity|exact H|exact Hx'].
Defined.

(** A later comment that starts inside the first, before its nearest
    closing, is part of the first comment and is kept with it. *)
Lemma overlapping_marker_kept :
  @updated_text small_runtime (str "2024-06-01")
    (str "<!-- {{subst:A}} x <!-- {{subst:B...}} -->tail") =
  Ok (str "<!-- {{subst:A}} x <!-- {{subst:B...}} -->" ++ [newline]
        ++ str "{{subst:A}} x <!-- {{subst:B2024-06-01}}").
Proof. vm_compute. reflexivity. Qed.
